(** * Qualifying-timeline aggregation: a shallow embedding of
      [data_processing_old.py] and the properties of its specification.

    Numbers are the program's own: a Python [float] is a binary64 value,
    embedded as Rocq's primitive [float] with its IEEE operations
    ([PrimFloat.sub], [PrimFloat.eqb], [PrimFloat.is_nan]).  [np.nan] is
    [nan]; a value that may also be Python's [None] is an [option float].
    A DataFrame is the list of its rows, in row order. *)

From Stdlib Require Import List String ZArith QArith Bool Lia Permutation.
From Stdlib Require Import Floats.
Import ListNotations.

Set Implicit Arguments.

Local Open Scope string_scope.
Local Open Scope list_scope.

(** ** Pandas and Python primitives *)

Module Py.

(** [pd.isna] on a scalar that is a float or [None]. *)
Definition isna (v : option float) : bool :=
  match v with
  | None => true
  | Some x => is_nan x
  end.

Definition notna (v : option float) : bool := negb (isna v).

(** Python's [x == 1] on a float. *)
Definition eq_one (x : float) : bool := PrimFloat.eqb x 1%float.

Section Unique.
Variable A : Type.
Variable eqb : A -> A -> bool.

Definition mem (x : A) (l : list A) : bool := existsb (eqb x) l.

(** [Series.unique()]: the distinct values in order of first appearance.
    [seen] is the hash table of the values met so far. *)
Fixpoint unique_from (seen l : list A) : list A :=
  match l with
  | [] => []
  | x :: xs =>
      if mem x seen then unique_from seen xs
      else x :: unique_from (x :: seen) xs
  end.

Definition unique (l : list A) : list A := unique_from [] l.
End Unique.

(** A [dict] with insertion order, as an association list without
    duplicate keys. *)
Section Dict.
Variables K V : Type.
Variable eqb : K -> K -> bool.

Fixpoint get (d : list (K * V)) (k : K) : option V :=
  match d with
  | [] => None
  | (k', v) :: d' => if eqb k k' then Some v else get d' k
  end.

Definition get_default (d : list (K * V)) (k : K) (dflt : V) : V :=
  match get d k with
  | Some v => v
  | None => dflt
  end.

(** [d[k] = v]: overwrite in place, or append a new key. *)
Fixpoint set (d : list (K * V)) (k : K) (v : V) : list (K * V) :=
  match d with
  | [] => [(k, v)]
  | (k', v') :: d' =>
      if eqb k k' then (k', v) :: d' else (k', v') :: set d' k v
  end.
End Dict.

End Py.

(** ** Data model *)

(** One row of the table handed to [process_qualifying_data]: the columns the
    function reads.  [Position] and the three [Q?Seconds] columns are float64
    columns, a missing value being NaN. *)
Record Row : Type := mkRow {
  BroadcastName : string;
  TeamName : string;
  Position : float;
  Year : Z;
  EventName : string;
  Q1Seconds : float;
  Q2Seconds : float;
  Q3Seconds : float
}.

Record EventSummary : Type := mkEventSummary {
  round : string;
  position : float;
  gapToPole : float;
  teammateGap : float;
  hasTeammateData : bool
}.

(** ** Time Normalizer and Gap Calculator *)

(** [get_best_time]: Q3, else Q2, else Q1, else [None]. *)
Definition get_best_time (driver_data : Row) : option float :=
  if Py.notna (Some (Q3Seconds driver_data)) then Some (Q3Seconds driver_data)
  else if Py.notna (Some (Q2Seconds driver_data)) then Some (Q2Seconds driver_data)
  else if Py.notna (Some (Q1Seconds driver_data)) then Some (Q1Seconds driver_data)
  else None.

(** [calculate_gap_to_pole].  The third test of the source is
    [best_time is None or pd.isna(pole_time)]; a [pole_time] of [None] is
    caught by [pd.isna]. *)
Definition calculate_gap_to_pole
    (position : option float) (best_time : option float)
    (pole_time : option float) : float :=
  match position with
  | None => nan
  | Some p =>
      if is_nan p then nan
      else if Py.eq_one p then 0%float
      else
        match best_time, pole_time with
        | Some b, Some t => if is_nan t then nan else (b - t)%float
        | _, _ => nan
        end
  end.

(** [create_event_summary]. *)
Definition create_event_summary
    (event_name : string) (position gap_to_pole teammate_gap : float)
    : EventSummary :=
  {| round := event_name;
     position := position;
     gapToPole := gap_to_pole;
     teammateGap := teammate_gap;
     hasTeammateData := negb (Py.isna (Some teammate_gap)) |}.

(** [calculate_teammate_gaps]: every driver of [team_data] starts at NaN; a
    team of exactly two drivers with two best times gets the two
    differences. *)
Definition calculate_teammate_gaps (team_data : list Row)
    : list (string * float) :=
  let drivers := Py.unique String.eqb (map BroadcastName team_data) in
  let gaps := map (fun driver => (driver, nan)) drivers in
  match drivers with
  | [driver1; driver2] =>
      let driver1_data :=
        filter (fun r => String.eqb (BroadcastName r) driver1) team_data in
      let driver2_data :=
        filter (fun r => String.eqb (BroadcastName r) driver2) team_data in
      match driver1_data, driver2_data with
      | r1 :: _, r2 :: _ =>
          match get_best_time r1, get_best_time r2 with
          | Some time1, Some time2 =>
              Py.set String.eqb
                (Py.set String.eqb gaps driver1 (time1 - time2)%float)
                driver2 (time2 - time1)%float
          | _, _ => gaps
          end
      | _, _ => gaps
      end
  | _ => gaps
  end.

(** ** Timeline Builder *)

(** The per-driver accumulator of [create_driver_entry]; the five trailing
    keys are the ones [process_qualifying_data] deletes at the end. *)
Module Acc.
Record t : Type := mk {
  year : Z;
  driver : string;
  team : string;
  events : list EventSummary;
  positions : list float;
  gapToPole_values : list float;
  teammateGap_values : list float;
  completeDataCount : nat;
  totalEvents : nat
}.

Definition append_gapToPole (x : float) (e : t) : t :=
  mk (year e) (driver e) (team e) (events e) (positions e)
     (gapToPole_values e ++ [x]) (teammateGap_values e)
     (completeDataCount e) (totalEvents e).

(** [teammateGap_values.append(x)] followed by [completeDataCount += 1]. *)
Definition append_teammateGap (x : float) (e : t) : t :=
  mk (year e) (driver e) (team e) (events e) (positions e)
     (gapToPole_values e) (teammateGap_values e ++ [x])
     (S (completeDataCount e)) (totalEvents e).

(** The three statements that close the body of the event loop. *)
Definition append_event (s : EventSummary) (e : t) : t :=
  mk (year e) (driver e) (team e) (events e ++ [s])
     (positions e ++ [position s])
     (gapToPole_values e) (teammateGap_values e)
     (completeDataCount e) (S (totalEvents e)).
End Acc.

(** [teamStintInfo], present on stint records only. *)
Record StintInfo : Type := mkStintInfo {
  eventRange : string;
  start_event : string;
  end_event : string
}.

(** A record of the output: the accumulator after the final loop has added
    the four aggregates and deleted the working keys.  [dataCompleteness] is
    the quotient of two integer counters; it is kept as the exact rational
    (Python rounds it to the nearest binary64). *)
Record TimelineEntry : Type := mkTimelineEntry {
  year : Z;
  driver : string;
  team : string;
  events : list EventSummary;
  avgQualifyingPosition : float;
  avgGapToPole : float;
  avgTeammateGap : float;
  dataCompleteness : Q;
  teamStintInfo : option StintInfo
}.

Definition create_driver_entry (year : Z) (driver team : string) : Acc.t :=
  Acc.mk year driver team [] [] [] [] 0 0.

Definition key_eqb (k1 k2 : Z * string) : bool :=
  Z.eqb (fst k1) (fst k2) && String.eqb (snd k1) (snd k2).

Definition rows_of_year (quali_data : list Row) (year : Z) : list Row :=
  filter (fun r => Z.eqb (Year r) year) quali_data.

(** The first loop of [process_qualifying_data]: [(year, driver)] is mapped
    to the team of the first row that carries the key. *)
Definition build_driver_team_mapping (quali_data : list Row)
    : list ((Z * string) * string) :=
  fold_left
    (fun mapping year =>
       fold_left
         (fun mapping row =>
            let key := (year, BroadcastName row) in
            match Py.get key_eqb mapping key with
            | Some _ => mapping
            | None => Py.set key_eqb mapping key (TeamName row)
            end)
         (rows_of_year quali_data year) mapping)
    (Py.unique Z.eqb (map Year quali_data)) [].

Definition rows_of_event (year_data : list Row) (event_name : string)
    : list Row :=
  filter (fun r => String.eqb (EventName r) event_name) year_data.

(** [pole_data.iloc[0]['Q3Seconds'] if not pole_data.empty else np.nan]. *)
Definition pole_time_of (event_data : list Row) : float :=
  match filter (fun r => Py.eq_one (Position r)) event_data with
  | pole :: _ => Q3Seconds pole
  | [] => nan
  end.

(** The [else] branch of the event loop: the driver has a row at the event. *)
Definition summarize_present
    (event_data : list Row) (driver team event_name : string)
    (driver_data : Row) : EventSummary * list (string * float) * float :=
  let pole_time := pole_time_of event_data in
  let team_data :=
    filter (fun r => String.eqb (TeamName r) team) event_data in
  let gaps := calculate_teammate_gaps team_data in
  let best_time := get_best_time driver_data in
  let qualifying_position :=
    if Py.notna (Some (Position driver_data)) then Position driver_data
    else nan in
  let gap_to_pole :=
    calculate_gap_to_pole (Some qualifying_position) best_time
      (Some pole_time) in
  (create_event_summary event_name qualifying_position gap_to_pole
     (Py.get_default String.eqb gaps driver nan),
   gaps, gap_to_pole).

(** One iteration of [for event_name in all_events]. *)
Definition process_event
    (year_data : list Row) (driver team : string)
    (driver_entry : Acc.t) (event_name : string) : Acc.t :=
  let event_data := rows_of_event year_data event_name in
  let driver_event_data :=
    filter (fun r => String.eqb (BroadcastName r) driver) event_data in
  match driver_event_data with
  | [] =>
      Acc.append_event (create_event_summary event_name nan nan nan)
        driver_entry
  | driver_data :: _ =>
      let '(event_summary, gaps, gap_to_pole) :=
        summarize_present event_data driver team event_name driver_data in
      let driver_entry :=
        if negb (Py.isna (Some gap_to_pole))
        then Acc.append_gapToPole gap_to_pole driver_entry
        else driver_entry in
      let driver_entry :=
        match Py.get String.eqb gaps driver with
        | Some g =>
            if negb (Py.isna (Some g))
            then Acc.append_teammateGap g driver_entry
            else driver_entry
        | None => driver_entry
        end in
      Acc.append_event event_summary driver_entry
  end.

Section Pipeline.

(** The order in which Python iterates over [set(names)]: it follows the
    hashes of the strings, which the interpreter salts per process. *)
Variable set_iter : list string -> list string.

(** [np.mean] on a non-empty list of floats. *)
Variable np_mean : list float -> float.

(** The body of the final loop. *)
Definition finalize (entry : Acc.t) : TimelineEntry :=
  let valid_positions :=
    filter (fun pos => negb (Py.isna (Some pos))) (Acc.positions entry) in
  let valid_gaps_to_pole :=
    filter (fun gap => negb (Py.isna (Some gap)))
      (Acc.gapToPole_values entry) in
  let valid_teammate_gaps :=
    filter (fun gap => negb (Py.isna (Some gap)))
      (Acc.teammateGap_values entry) in
  {| year := Acc.year entry;
     driver := Acc.driver entry;
     team := Acc.team entry;
     events := Acc.events entry;
     avgQualifyingPosition :=
       match valid_positions with
       | [] => nan
       | _ :: _ => np_mean valid_positions
       end;
     avgGapToPole :=
       match valid_gaps_to_pole with
       | [] => nan
       | _ :: _ => np_mean valid_gaps_to_pole
       end;
     avgTeammateGap :=
       match valid_teammate_gaps with
       | [] => nan
       | _ :: _ => np_mean valid_teammate_gaps
       end;
     dataCompleteness :=
       if (0 <? Acc.totalEvents entry)%nat
       then (inject_Z (Z.of_nat (Acc.completeDataCount entry))
             / inject_Z (Z.of_nat (Acc.totalEvents entry)))%Q
       else 0%Q;
     teamStintInfo := None |}.

(** The event loop for one driver, over the events [event_names]. *)
Definition process_driver
    (year_data : list Row) (year : Z) (driver team : string)
    (event_names : list string) : Acc.t :=
  fold_left (process_event year_data driver team) event_names
    (create_driver_entry year driver team).

(** The body of the second [for year in ...] loop.  The source appends the
    entry to [timeline_data] before it fills it; the list holds a
    reference, so the appended entry is the filled one. *)
Definition process_year
    (quali_data : list Row) (driver_team_mapping : list ((Z * string) * string))
    (timeline_data : list Acc.t) (year : Z) : list Acc.t :=
  let year_data := rows_of_year quali_data year in
  let all_events := Py.unique String.eqb (map EventName year_data) in
  let year_drivers :=
    set_iter (Py.unique String.eqb (map BroadcastName year_data)) in
  fold_left
    (fun timeline_data driver =>
       match Py.get key_eqb driver_team_mapping (year, driver) with
       | None => timeline_data
       | Some team =>
           timeline_data
             ++ [process_driver year_data year driver team all_events]
       end)
    year_drivers timeline_data.

(** [process_qualifying_data], on a table that has the required columns. *)
Definition process_qualifying_data (quali_data : list Row)
    : list TimelineEntry :=
  let driver_team_mapping := build_driver_team_mapping quali_data in
  let timeline_data :=
    fold_left (process_year quali_data driver_team_mapping)
      (Py.unique Z.eqb (map Year quali_data)) [] in
  map finalize timeline_data.

End Pipeline.

(** ** Time conversion *)

Inductive Exception : Type := ValueError.

Inductive Result (A : Type) : Type :=
| Ok (a : A)
| Raise (e : Exception).

Arguments Ok {A} a.
Arguments Raise {A} e.

Definition bind {A B : Type} (r : Result A) (k : A -> Result B) : Result B :=
  match r with
  | Ok a => k a
  | Raise e => Raise e
  end.

Notation "x <- r ;; k" := (bind r (fun x => k))
  (at level 61, r at next level, right associativity).

(** A cell of the columns [Q1], [Q2], [Q3] as [read_csv] delivers it: a
    missing value, a string that pandas reads as a duration (given by its
    nanoseconds), or a string that pandas cannot read as a duration. *)
Inductive DurationField : Type :=
| Absent
| Duration (nanoseconds : Z)
| Malformed (text : string).

(** A row of the table before [convert_time]. *)
Record RawRow : Type := mkRawRow {
  raw_BroadcastName : string;
  raw_TeamName : string;
  raw_Position : float;
  raw_Year : Z;
  raw_EventName : string;
  Q1 : DurationField;
  Q2 : DurationField;
  Q3 : DurationField
}.

(** [pd.to_timedelta(column)], called without [errors=]: the default is
    [errors='raise'], so a string that is no duration raises [ValueError];
    a missing value becomes [NaT] (here [None]). *)
Fixpoint to_timedelta (column : list DurationField)
    : Result (list (option Z)) :=
  match column with
  | [] => Ok []
  | Malformed _ :: _ => Raise ValueError
  | Absent :: rest => tds <- to_timedelta rest ;; Ok (None :: tds)
  | Duration ns :: rest => tds <- to_timedelta rest ;; Ok (Some ns :: tds)
  end.

Section TimeConversion.

(** [Timedelta.total_seconds], from nanoseconds to a float. *)
Variable total_seconds : Z -> float.

(** [lambda x: x.total_seconds() if pd.notna(x) else np.nan]. *)
Definition seconds_or_nan (x : option Z) : float :=
  match x with
  | Some ns => total_seconds ns
  | None => nan
  end.

Definition with_seconds (r : RawRow) (s : float * (float * float)) : Row :=
  {| BroadcastName := raw_BroadcastName r;
     TeamName := raw_TeamName r;
     Position := raw_Position r;
     Year := raw_Year r;
     EventName := raw_EventName r;
     Q1Seconds := fst s;
     Q2Seconds := fst (snd s);
     Q3Seconds := snd (snd s) |}.

(** [convert_time]. *)
Definition convert_time (df : list RawRow) : Result (list Row) :=
  q1 <- to_timedelta (map Q1 df) ;;
  q2 <- to_timedelta (map Q2 df) ;;
  q3 <- to_timedelta (map Q3 df) ;;
  Ok (map (fun rs => with_seconds (fst rs) (snd rs))
        (combine df
           (combine (map seconds_or_nan q1)
              (combine (map seconds_or_nan q2) (map seconds_or_nan q3))))).

Variable set_iter : list string -> list string.
Variable np_mean : list float -> float.

(** [generate_dashboard_data], between reading the files and writing the
    output. *)
Definition generate_dashboard_data (quali_data : list RawRow)
    : Result (list TimelineEntry) :=
  df <- convert_time quali_data ;;
  Ok (process_qualifying_data set_iter np_mean df).

End TimeConversion.

(** ** Stint Segmenter *)

Section Stints.

Variable np_mean : list float -> float.

(** Modelled from the spec: the team a driver is recorded with at an event
    (the Stint Segmenter reads it from the raw per-event records); the
    segmenter's source is not among the files of the repository. *)
Definition team_at (year_data : list Row) (driver event_name : string)
    : option string :=
  match
    filter (fun r => String.eqb (BroadcastName r) driver)
      (rows_of_event year_data event_name)
  with
  | r :: _ => Some (TeamName r)
  | [] => None
  end.

(** Modelled from the spec: the event-ordered team affiliation of a driver.
    The stints partition the whole event list, so an event without a record
    of the driver stays with the team that is current at that point. *)
Fixpoint affiliation (year_data : list Row) (driver current : string)
    (event_names : list string) : list (string * string) :=
  match event_names with
  | [] => []
  | e :: es =>
      let t :=
        match team_at year_data driver e with
        | Some t => t
        | None => current
        end in
      (e, t) :: affiliation year_data driver t es
  end.

(** Modelled from the spec: the maximal contiguous runs of same-team
    events, each with its team and its events in order. *)
Fixpoint contiguous_runs (l : list (string * string))
    : list (string * list string) :=
  match l with
  | [] => []
  | (e, t) :: l' =>
      match contiguous_runs l' with
      | (t', es) :: runs =>
          if String.eqb t t' then (t, e :: es) :: runs
          else (t, [e]) :: (t', es) :: runs
      | [] => [(t, [e])]
      end
  end.

(** Modelled from the spec: a stint carries its team, its first and last
    event, a label of the event range, and the events and aggregates of the
    Timeline Builder recomputed over the events of the stint. *)
Definition stint_entry (year_data : list Row) (y : Z) (d : string)
    (run : string * list string) : TimelineEntry :=
  let e :=
    finalize np_mean (process_driver year_data y d (fst run) (snd run)) in
  let first := hd "" (snd run) in
  let final := last (snd run) "" in
  {| year := year e;
     driver := driver e;
     team := team e;
     events := events e;
     avgQualifyingPosition := avgQualifyingPosition e;
     avgGapToPole := avgGapToPole e;
     avgTeammateGap := avgTeammateGap e;
     dataCompleteness := dataCompleteness e;
     teamStintInfo :=
       Some {| eventRange := first ++ "-" ++ final;
               start_event := first;
               end_event := final |} |}.

(** Modelled from the spec: the stints of one driver in one season, from
    the first-seen team and the season's events in first-encounter order. *)
Definition segment_stints (quali_data : list Row) (year : Z)
    (driver : string) : list TimelineEntry :=
  let year_data := rows_of_year quali_data year in
  let all_events := Py.unique String.eqb (map EventName year_data) in
  match
    Py.get key_eqb (build_driver_team_mapping quali_data) (year, driver)
  with
  | None => []
  | Some first_team =>
      map (stint_entry year_data year driver)
        (contiguous_runs
           (affiliation year_data driver first_team all_events))
  end.

End Stints.


(** ** Functions used to state the properties *)

Definition not_nan (x : float) : bool := negb (Py.isna (Some x)).

(** Python's [x == y] on two floats. *)
Definition float_eq (x y : float) : bool := PrimFloat.eqb x y.

(** Two results that are zeros, of whatever sign. *)
Definition both_zero (x y : spec_float) : Prop :=
  exists s s', x = S754_zero s /\ y = S754_zero s'.

(** [gaps.get(driver, np.nan)] on the result of [calculate_teammate_gaps]. *)
Definition teammate_gap_of (team_data : list Row) (d : string) : float :=
  Py.get_default String.eqb (calculate_teammate_gaps team_data) d nan.

(** The first row of a driver in a table. *)
Definition first_row (driver : string) (rows : list Row) : option Row :=
  hd_error (filter (fun r => String.eqb (BroadcastName r) driver) rows).

(** The team of the first row of a driver in a season. *)
Definition first_seen_team (quali_data : list Row) (y : Z) (d : string)
    : option string :=
  option_map TeamName (first_row d (rows_of_year quali_data y)).

(** The event summary the event loop appends for one event. *)
Definition event_summary_of
    (year_data : list Row) (driver team event_name : string) : EventSummary :=
  let event_data := rows_of_event year_data event_name in
  match first_row driver event_data with
  | None => create_event_summary event_name nan nan nan
  | Some driver_data =>
      fst (fst (summarize_present event_data driver team event_name
                  driver_data))
  end.

(** The working keys of an accumulator agree with its event list. *)
Definition acc_consistent (e : Acc.t) : Prop :=
  Acc.positions e = map position (Acc.events e)
  /\ Acc.gapToPole_values e = filter not_nan (map gapToPole (Acc.events e))
  /\ Acc.teammateGap_values e
     = filter not_nan (map teammateGap (Acc.events e))
  /\ Acc.completeDataCount e
     = List.length (filter hasTeammateData (Acc.events e))
  /\ Acc.totalEvents e = List.length (Acc.events e).

(** [agg] is the mean of the values that are not NaN, and NaN when every
    value is NaN (or there is no value). *)
Definition mean_of_non_null (np_mean : list float -> float)
    (values : list float) (agg : float) : Prop :=
  (filter not_nan values = [] -> agg = nan)
  /\ (filter not_nan values <> [] -> agg = np_mean (filter not_nan values)).

(** The drivers of a season, in first-encounter order. *)
Definition season_drivers (quali_data : list Row) (y : Z) : list string :=
  Py.unique String.eqb (map BroadcastName (rows_of_year quali_data y)).

(** The mean of the values that are not NaN, NaN when there is none. *)
Definition mean_of_valid (np_mean : list float -> float) (values : list float)
    : float :=
  let valid := filter not_nan values in
  match valid with
  | [] => nan
  | _ :: _ => np_mean valid
  end.

(** The events of a season, in first-encounter order. *)
Definition season_events (quali_data : list Row) (y : Z) : list string :=
  Py.unique String.eqb (map EventName (rows_of_year quali_data y)).

(** The entries of one season, one per driver in the order [drivers]. *)
Definition season_entries (quali_data : list Row) (y : Z)
    (drivers : list string) : list Acc.t :=
  flat_map
    (fun d =>
       match
         Py.get key_eqb (build_driver_team_mapping quali_data) (y, d)
       with
       | None => []
       | Some t =>
           [fold_left (process_event (rows_of_year quali_data y) d t)
              (season_events quali_data y) (create_driver_entry y d t)]
       end)
    drivers.

(** A cell that pandas cannot read as a duration. *)
Definition is_malformed (f : DurationField) : bool :=
  match f with
  | Malformed _ => true
  | _ => false
  end.

Definition row_malformed (r : RawRow) : bool :=
  is_malformed (Q1 r) || is_malformed (Q2 r) || is_malformed (Q3 r).

(** The timedelta of a cell that is not malformed ([None] is [NaT]). *)
Definition timedelta_of (f : DurationField) : option Z :=
  match f with
  | Duration ns => Some ns
  | _ => None
  end.

(** The seconds of a cell: those of its duration, NaN when it is absent. *)
Definition field_seconds (total_seconds : Z -> float) (f : DurationField)
    : float :=
  seconds_or_nan total_seconds (timedelta_of f).

(** A row with the seconds of its three cells. *)
Definition converted_row (total_seconds : Z -> float) (r : RawRow) : Row :=
  with_seconds r
    (field_seconds total_seconds (Q1 r),
     (field_seconds total_seconds (Q2 r),
      field_seconds total_seconds (Q3 r))).

(** ** Sample data *)

Module Sample.

(** A sequential mean: the sum from the left, divided by the count. *)
Definition mean_seq (l : list float) : float :=
  (fold_left PrimFloat.add l 0
   / PrimFloat.of_uint63 (Uint63.of_Z (Z.of_nat (List.length l))))%float.

(** Seconds of a duration given in nanoseconds. *)
Definition total_seconds (ns : Z) : float :=
  (PrimFloat.of_uint63 (Uint63.of_Z ns) / 1000000000)%float.

Definition insertion_order (names : list string) : list string := names.

Definition reverse_order (names : list string) : list string := rev names.

Definition row (name team : string) (pos : float) (event : string)
    (q1 q2 q3 : float) : Row :=
  mkRow name team pos 2022 event q1 q2 q3.

(** Two events of one season; at R2 the pole sitter has no Q3 time. *)
Definition season_2022 : list Row :=
  [ row "A" "T1" 1 "R1" 81 80.5 80;
    row "B" "T1" 2 "R1" 81.5 80.75 80.25;
    row "C" "T2" 3 "R1" 82 nan nan;
    row "A" "T1" 2 "R2" 81 80.5 80.5;
    row "B" "T1" 1 "R2" 81.5 80.75 nan ].

(** Driver A moves from T1 to T2 after R1 and meets C there. *)
Definition transfer_2022 : list Row :=
  [ row "A" "T1" 1 "R1" 81 80.5 80;
    row "B" "T1" 2 "R1" 81.5 80.75 80.25;
    row "C" "T2" 3 "R1" 82 81 nan;
    row "A" "T2" 1 "R2" 81 80.5 80.5;
    row "C" "T2" 2 "R2" 81.5 80.75 80.75;
    row "B" "T1" 3 "R2" 82 81 nan ].

(** The output for [season_2022], and its first entry (driver A). *)
Definition entries_2022 : list TimelineEntry :=
  Eval vm_compute in
    process_qualifying_data insertion_order mean_seq season_2022.

Definition entry_A : TimelineEntry :=
  Eval vm_compute in
    hd (finalize mean_seq (create_driver_entry 0 "" "")) entries_2022.

(** The last entry (driver C), who has no teammate. *)
Definition entry_C : TimelineEntry :=
  Eval vm_compute in
    last entries_2022 (finalize mean_seq (create_driver_entry 0 "" "")).

(** An event in which no row has position 1. *)
Definition no_pole_2022 : list Row :=
  [ row "A" "T1" 2 "R1" 81 80.5 80;
    row "B" "T1" nan "R1" 81.5 80.75 80.25 ].

Definition entry_no_pole : TimelineEntry :=
  Eval vm_compute in
    hd (finalize mean_seq (create_driver_entry 0 "" ""))
      (process_qualifying_data insertion_order mean_seq no_pole_2022).

Definition summary_no_pole : EventSummary :=
  Eval vm_compute in
    hd (create_event_summary "" nan nan nan) (events entry_no_pole).

(** Driver A in [transfer_2022], and A's summary of R2. *)
Definition entry_transfer_A : TimelineEntry :=
  Eval vm_compute in
    hd (finalize mean_seq (create_driver_entry 0 "" ""))
      (process_qualifying_data insertion_order mean_seq transfer_2022).

Definition summary_transfer_A_R2 : EventSummary :=
  Eval vm_compute in
    last (events entry_transfer_A) (create_event_summary "" nan nan nan).

(** The rows of team T1 and of team T2 at R1. *)
Definition team_T1_R1 : list Row :=
  [ row "A" "T1" 1 "R1" 81 80.5 80;
    row "B" "T1" 2 "R1" 81.5 80.75 80.25 ].

Definition team_T2_R1 : list Row :=
  [ row "C" "T2" 3 "R1" 82 nan nan ].

Definition raw (name team : string) (pos : float) (event : string)
    (q1 q2 q3 : DurationField) : RawRow :=
  mkRawRow name team pos 2022 event q1 q2 q3.

Definition raw_clean : list RawRow :=
  [ raw "A" "T1" 1 "R1" (Duration 81000000000) (Duration 80500000000)
      (Duration 80000000000);
    raw "B" "T1" 2 "R1" (Duration 81500000000) Absent Absent ].

Definition raw_malformed : list RawRow :=
  [ raw "A" "T1" 1 "R1" (Duration 81000000000) (Duration 80500000000)
      (Duration 80000000000);
    raw "B" "T1" 2 "R1" (Malformed "1:21.5oo") Absent Absent ].

End Sample.

(** ** The remaining parts of [data_processing_old.py] *)

(** The [required_columns] of [process_qualifying_data]. *)
Definition required_columns : list string :=
  [ "DriverNumber"; "BroadcastName"; "TeamName"; "Position";
    "Q1"; "Q2"; "Q3"; "Year"; "EventName"; "WetSession";
    "Q1Seconds"; "Q2Seconds"; "Q3Seconds" ].

(** [[col for col in required_columns if col not in quali_data.columns]]. *)
Definition missing_columns (columns : list string) : list string :=
  filter (fun col => negb (Py.mem String.eqb col columns)) required_columns.

(** The check that opens [process_qualifying_data]:
    [if missing_columns: raise ValueError(...)]. *)
Definition check_required_columns (columns : list string) : Result unit :=
  match missing_columns columns with
  | [] => Ok tt
  | _ :: _ => Raise ValueError
  end.

(** [df[col] = ...] on the header of a table: an existing column keeps its
    place, a new one is appended. *)
Definition assign_column (columns : list string) (col : string)
    : list string :=
  if Py.mem String.eqb col columns then columns else columns ++ [col].

(** The header after [convert_time].  [df['Q1']], [df['Q2']] and [df['Q3']]
    are read first, which raises [KeyError] (here [None]) when one of them is
    missing; they are assigned in place, and the three columns of seconds
    are assigned after them. *)
Definition columns_after_convert_time (columns : list string)
    : option (list string) :=
  if Py.mem String.eqb "Q1" columns && Py.mem String.eqb "Q2" columns
     && Py.mem String.eqb "Q3" columns
  then
    Some
      (assign_column
         (assign_column (assign_column columns "Q1Seconds") "Q2Seconds")
         "Q3Seconds")
  else None.

(** The columns of the files the collector writes
    ([_process_year_events] of [data_collection.py]). *)
Definition collector_columns : list string :=
  [ "DriverNumber"; "BroadcastName"; "TeamName"; "Position";
    "Q1"; "Q2"; "Q3"; "Year"; "EventName"; "WetSession" ].

(** A file of the data folder, as [pd.read_csv] finds it: its rows, or an
    exception (which [combine_csv_files] prints and passes over). *)
Inductive CsvFile : Type :=
| Readable (df : list RawRow)
| Unreadable.

(** The loop of [combine_csv_files] over [path.glob('*.csv')]. *)
Definition read_all (files : list CsvFile) : list (list RawRow) :=
  fold_left
    (fun all_dfs file =>
       match file with
       | Readable df => all_dfs ++ [df]
       | Unreadable => all_dfs
       end)
    files [].

(** [combine_csv_files]: [pd.concat(all_dfs, ignore_index=True)], or [None]
    when no file was read. *)
Definition combine_csv_files (files : list CsvFile) : option (list RawRow) :=
  let all_dfs := read_all files in
  match all_dfs with
  | [] => None
  | _ :: _ => Some (List.concat all_dfs)
  end.

(** The rows a file contributes to the combined table. *)
Definition rows_of_file (file : CsvFile) : list RawRow :=
  match file with
  | Readable df => df
  | Unreadable => []
  end.

Definition is_readable (file : CsvFile) : bool :=
  match file with
  | Readable _ => true
  | Unreadable => false
  end.

(** What a run of [generate_dashboard_data] leaves behind. *)
Inductive RunOutcome : Type :=
| NoData
| Aborted (e : Exception)
| Written (career_timeline_data : list TimelineEntry).

(** [generate_dashboard_data] from the files of the data folder: it returns
    without output when nothing was read, an exception of [convert_time]
    leaves no output file, and otherwise the timeline is written. *)
Definition generate_dashboard_data_from
    (total_seconds : Z -> float) (set_iter : list string -> list string)
    (np_mean : list float -> float) (files : list CsvFile) : RunOutcome :=
  match combine_csv_files files with
  | None => NoData
  | Some quali_data =>
      match
        generate_dashboard_data total_seconds set_iter np_mean quali_data
      with
      | Ok career_timeline_data => Written career_timeline_data
      | Raise e => Aborted e
      end
  end.

(** The first row with position 1, if any. *)
Definition pole_row (event_data : list Row) : option Row :=
  hd_error (filter (fun r => Py.eq_one (Position r)) event_data).

(** ** The collector, [data_collection.py] *)

Module Collector.

(** An event of the schedule [fastf1.get_event_schedule] returns; the date is
    a point on the time line of [datetime.now()]. *)
Record ScheduleEvent : Type := mkScheduleEvent {
  EventName : string;
  EventFormat : string;
  EventDate : Z
}.

(** A row of [session.results], restricted to the seven columns kept. *)
Record ResultRow : Type := mkResultRow {
  DriverNumber : string;
  BroadcastName : string;
  TeamName : string;
  Position : float;
  Q1 : DurationField;
  Q2 : DurationField;
  Q3 : DurationField
}.

(** A loaded session: its results, and the [Rainfall] column of its weather
    data ([None] when there is no weather data or no such column). *)
Record Session : Type := mkSession {
  results : list ResultRow;
  rainfall : option (list bool)
}.

(** A row of a frame of [yearly_data]. *)
Record CollectedRow : Type := mkCollectedRow {
  result : ResultRow;
  Year : Z;
  Event : string;
  WetSession : bool
}.

(** What the collector does to the outside world, in order. *)
Inductive Effect : Type :=
| GetEventSchedule (year : Z)
| GetSession (year : Z) (event_name : string)
| Sleep (seconds : Z)
| LogWarning
| LogError
| LogInfo
| WriteCsv (year : Z).

(** The outside world: the answer to the [attempt]-th request for a
    schedule, the session of an event, and whether writing a file succeeds;
    [None] and [false] stand for an exception. *)
Record Network : Type := mkNetwork {
  get_event_schedule : Z -> nat -> option (list ScheduleEvent);
  get_session : Z -> string -> option Session;
  to_csv : Z -> bool
}.

(** The two filters of [_get_schedule]; [today] and [this_year] are
    [datetime.now()] and its year. *)
Definition filter_schedule (today this_year year : Z)
    (schedule : list ScheduleEvent) : list ScheduleEvent :=
  let schedule :=
    filter (fun ev => negb (EventFormat ev =? "testing")%string) schedule in
  if (this_year =? year)%Z
  then filter (fun ev => (EventDate ev <? today)%Z) schedule
  else schedule.

(** The loop of [_get_schedule] over the attempts that are left. *)
Fixpoint get_schedule_attempts (net : Network) (today this_year year : Z)
    (max_retries delay : Z) (attempts : list nat)
    : option (list ScheduleEvent) * list Effect :=
  match attempts with
  | [] => (None, [])
  | attempt :: rest =>
      match get_event_schedule net year attempt with
      | Some schedule =>
          (Some (filter_schedule today this_year year schedule),
           [GetEventSchedule year])
      | None =>
          if (Z.of_nat attempt <? max_retries - 1)%Z
          then
            let '(schedule, effects) :=
              get_schedule_attempts net today this_year year max_retries
                delay rest in
            (schedule,
             GetEventSchedule year :: LogWarning :: Sleep delay :: effects)
          else (None, [GetEventSchedule year; LogError])
      end
  end.

(** [_get_schedule]: [for attempt in range(max_retries)]. *)
Definition _get_schedule (net : Network) (today this_year year : Z)
    (max_retries delay : Z) : option (list ScheduleEvent) * list Effect :=
  get_schedule_attempts net today this_year year max_retries delay
    (seq 0 (Z.to_nat max_retries)).

(** [session_weather['Rainfall'].mean()] on a column of booleans: the number
    of [True] over the number of samples, in binary64. *)
Definition rain_percentage (samples : list bool) : float :=
  (PrimFloat.of_uint63
     (Uint63.of_Z (Z.of_nat (List.length (filter (fun b => b) samples))))
   / PrimFloat.of_uint63 (Uint63.of_Z (Z.of_nat (List.length samples))))%float.

(** The wet-session flag of [_process_year_events]. *)
Definition is_wet (session : Session) : bool :=
  match rainfall session with
  | None => false
  | Some samples =>
      match samples with
      | [] => false
      | _ :: _ => PrimFloat.ltb 0.5 (rain_percentage samples)
      end
  end.

(** The frame of one event: the results with the three added columns. *)
Definition event_frame (year : Z) (event_name : string) (session : Session)
    : list CollectedRow :=
  map (fun r => mkCollectedRow r year event_name (is_wet session))
    (results session).

(** One iteration of the loop of [_process_year_events]. *)
Definition process_event (net : Network) (year : Z)
    (acc : list (list CollectedRow) * list Effect) (event : ScheduleEvent)
    : list (list CollectedRow) * list Effect :=
  let '(yearly_data, effects) := acc in
  match get_session net year (EventName event) with
  | Some session =>
      (yearly_data ++ [event_frame year (EventName event) session],
       effects ++ [Sleep 5; GetSession year (EventName event)])
  | None =>
      (yearly_data,
       effects ++ [Sleep 5; GetSession year (EventName event); LogError])
  end.

(** [_process_year_events]. *)
Definition _process_year_events (net : Network) (year : Z)
    (schedule : list ScheduleEvent)
    : list (list CollectedRow) * list Effect :=
  fold_left (process_event net year) schedule ([], []).

(** The state of [fetch_qualifying_data]: the two lists of [results], the
    years whose output file exists, and the effects so far. *)
Record FetchState : Type := mkFetchState {
  success : list Z;
  failed : list Z;
  files : list Z;
  effects : list Effect
}.

(** One iteration of the loop of [fetch_qualifying_data]. *)
Definition fetch_year (net : Network) (today this_year : Z) (reload : bool)
    (st : FetchState) (year : Z) : FetchState :=
  if Py.mem Z.eqb year (files st) && negb reload
  then
    mkFetchState (success st ++ [year]) (failed st) (files st)
      (effects st ++ [LogInfo])
  else
    let '(schedule, effects1) := _get_schedule net today this_year year 3 5 in
    match schedule with
    | None =>
        mkFetchState (success st) (failed st ++ [year]) (files st)
          (effects st ++ effects1)
    | Some schedule =>
        let '(yearly_data, effects2) :=
          _process_year_events net year schedule in
        match yearly_data with
        | [] =>
            mkFetchState (success st) (failed st ++ [year]) (files st)
              (effects st ++ effects1 ++ effects2)
        | _ :: _ =>
            if to_csv net year
            then
              mkFetchState (success st ++ [year]) (failed st)
                (if Py.mem Z.eqb year (files st) then files st
                 else files st ++ [year])
                (effects st ++ effects1 ++ effects2 ++ [WriteCsv year])
            else
              mkFetchState (success st) (failed st ++ [year]) (files st)
                (effects st ++ effects1 ++ effects2
                 ++ [WriteCsv year; LogError])
        end
    end.

(** [fetch_qualifying_data], from the output files that exist at the
    start. *)
Definition fetch_qualifying_data (net : Network) (today this_year : Z)
    (reload : bool) (existing : list Z) (years : list Z) : FetchState :=
  fold_left (fetch_year net today this_year reload) years
    (mkFetchState [] [] existing []).

(** The seconds spent in [time.sleep]. *)
Definition slept (effects : list Effect) : Z :=
  fold_right
    (fun eff total =>
       match eff with
       | Sleep seconds => (seconds + total)%Z
       | _ => total
       end)
    0%Z effects.

Definition is_request (eff : Effect) : bool :=
  match eff with
  | GetEventSchedule _ | GetSession _ _ => true
  | _ => false
  end.

Definition is_error (eff : Effect) : bool :=
  match eff with
  | LogError => true
  | _ => false
  end.

(** What one failed attempt that is not the last leaves behind. *)
Definition failed_attempt (year delay : Z) : list Effect :=
  [GetEventSchedule year; LogWarning; Sleep delay].

End Collector.

(** The frames of the events of a schedule whose session loads, in the order
    of the schedule. *)
Definition loaded_frames (net : Collector.Network) (year : Z)
    (schedule : list Collector.ScheduleEvent)
    : list (list Collector.CollectedRow) :=
  flat_map
    (fun ev =>
       match Collector.get_session net year (Collector.EventName ev) with
       | Some session =>
           [Collector.event_frame year (Collector.EventName ev) session]
       | None => []
       end)
    schedule.

(** The events of a schedule whose session does not load. *)
Definition failed_events (net : Collector.Network) (year : Z)
    (schedule : list Collector.ScheduleEvent)
    : list Collector.ScheduleEvent :=
  filter
    (fun ev =>
       match Collector.get_session net year (Collector.EventName ev) with
       | Some _ => false
       | None => true
       end)
    schedule.

(** A year can be fetched: a schedule arrives within the three attempts, the
    session of at least one of its events loads, and the file is written. *)
Definition fetchable (net : Collector.Network) (today this_year year : Z)
    : Prop :=
  exists schedule,
    fst (Collector._get_schedule net today this_year year 3 5)
    = Some schedule
    /\ loaded_frames net year schedule <> []
    /\ Collector.to_csv net year = true.

(** ** Further sample data *)

Module Cases.

Definition no_summary : EventSummary := create_event_summary "" nan nan nan.

Definition no_entry : TimelineEntry :=
  finalize Sample.mean_seq (create_driver_entry 0 "" "").

(** Driver B of [Sample.season_2022]; second at R1, on pole at R2. *)
Definition entry_B : TimelineEntry :=
  Eval vm_compute in nth 1 Sample.entries_2022 no_entry.

Definition summary_A_R1 : EventSummary :=
  Eval vm_compute in hd no_summary (events Sample.entry_A).

Definition summary_B_R1 : EventSummary :=
  Eval vm_compute in hd no_summary (events entry_B).

(** Driver C has no row at R2. *)
Definition summary_C_R2 : EventSummary :=
  Eval vm_compute in last (events Sample.entry_C) no_summary.

(** A data folder with one file that cannot be read. *)
Definition folder : list CsvFile :=
  [ Readable Sample.raw_clean; Unreadable; Readable Sample.raw_clean ].

Definition folder_malformed : list CsvFile :=
  [ Unreadable; Readable Sample.raw_malformed ].

(** A network that answers the third request for the 2022 schedule, loads
    the session of R1 but not of R2, and can write files. *)
Definition schedule_2022 : list Collector.ScheduleEvent :=
  [ Collector.mkScheduleEvent "Test" "testing" 10;
    Collector.mkScheduleEvent "R1" "conventional" 20;
    Collector.mkScheduleEvent "R2" "conventional" 30;
    Collector.mkScheduleEvent "R3" "conventional" 90 ].

Definition session_R1 : Collector.Session :=
  Collector.mkSession
    [ Collector.mkResultRow "44" "A" "T1" 1 (Duration 81000000000)
        (Duration 80500000000) (Duration 80000000000);
      Collector.mkResultRow "63" "B" "T1" 2 (Duration 81500000000) Absent
        Absent ]
    (Some [true; false; false]).

Definition flaky : Collector.Network :=
  Collector.mkNetwork
    (fun year attempt =>
       if (year =? 2022)%Z && (2 <=? attempt)%nat then Some schedule_2022
       else None)
    (fun year event_name =>
       if (event_name =? "R1")%string then Some session_R1 else None)
    (fun year => true).

End Cases.

(** * Properties *)

Unset Implicit Arguments.

(** ** Binary64 facts *)

Lemma SFcompare_refl_not_nan (x : spec_float) :
  x <> S754_nan -> SFcompare x x = Some Eq.
Proof.
  destruct x as [s | s | | s m e]; simpl; try congruence; intros _.
  - destruct s; reflexivity.
  - change (PosDef.Pos.compare_cont Eq m m) with (Pos.compare m m).
    change (IntDef.Z.compare e e) with (Z.compare e e).
    destruct s; rewrite Z.compare_refl, Pos.compare_refl; reflexivity.
Qed.

Lemma is_nan_spec (x : float) : is_nan x = true <-> Prim2SF x = S754_nan.
Proof.
  unfold is_nan. rewrite eqb_spec. unfold SFeqb. split.
  - intros H. destruct (Prim2SF x) eqn:E; try reflexivity;
      rewrite SFcompare_refl_not_nan in H by congruence; discriminate.
  - intros ->. reflexivity.
Qed.

Lemma is_nan_eq (x : float) : is_nan x = true -> x = nan.
Proof.
  intros H. apply Prim2SF_inj. apply is_nan_spec in H. rewrite H. reflexivity.
Qed.

Lemma sub_nan_l (y : float) : (nan - y)%float = nan.
Proof.
  apply Prim2SF_inj. rewrite sub_spec.
  change (Prim2SF nan) with S754_nan. reflexivity.
Qed.

(** Rounding does not look at the sign: it only stamps it on the result. *)
Lemma binary_round_negb prec emax (s : bool) (m : positive) (e : Z) :
  binary_round prec emax (negb s) m e = SFopp (binary_round prec emax s m e).
Proof.
  unfold binary_round, binary_round_aux.
  destruct (shl_align m e _) as [mz ez].
  destruct (shr_fexp prec emax (Z.pos mz) ez loc_Exact) as [mrs' e'].
  destruct (shr_fexp prec emax _ e' loc_Exact) as [mrs'' e''].
  destruct (shr_m mrs''); simpl; try reflexivity.
  destruct (Z.leb e'' _); reflexivity.
Qed.

Lemma binary_normalize_opp prec emax (m e : Z) :
  m <> 0%Z ->
  binary_normalize prec emax (- m) e false
  = SFopp (binary_normalize prec emax m e false).
Proof.
  destruct m as [| p | p]; simpl; intros H; try congruence.
  - apply (binary_round_negb prec emax false).
  - apply (binary_round_negb prec emax true).
Qed.

(** [y - x] is the opposite of [x - y], up to the sign of a zero result. *)
Lemma SFsub_swap prec emax (x y : spec_float) :
  SFsub prec emax y x = SFopp (SFsub prec emax x y)
  \/ both_zero (SFsub prec emax y x) (SFsub prec emax x y).
Proof.
  destruct x as [sx | sx | | sx mx ex], y as [sy | sy | | sy my ey];
    try (left; simpl; try destruct sx; try destruct sy; reflexivity);
    try (right; simpl; destruct sx, sy; do 2 eexists; split; reflexivity).
  cbn [SFsub]. rewrite (Z.min_comm ey ex).
  set (ez := Z.min ex ey).
  set (a := cond_Zopp sx (Z.pos (fst (shl_align mx ex ez)))).
  set (b := cond_Zopp sy (Z.pos (fst (shl_align my ey ez)))).
  replace (b - a)%Z with (- (a - b))%Z by lia.
  destruct (Z.eq_dec (a - b) 0) as [E | E].
  - right. rewrite E. simpl. do 2 eexists; split; reflexivity.
  - left. apply binary_normalize_opp; assumption.
Qed.

Lemma sub_swap (x y : float) :
  (y - x)%float = (- (x - y))%float
  \/ float_eq (y - x) (- (x - y)) = true.
Proof.
  destruct (SFsub_swap prec emax (Prim2SF x) (Prim2SF y))
    as [E | (s & s' & E1 & E2)].
  - left. apply Prim2SF_inj. rewrite opp_spec, !sub_spec. exact E.
  - right. unfold float_eq. rewrite eqb_spec, opp_spec, !sub_spec.
    unfold SF64sub. rewrite E1, E2. destruct s, s'; reflexivity.
Qed.

Lemma sub_swap_number (x y : float) :
  is_nan (x - y) = false -> float_eq (y - x) (- (x - y)) = true.
Proof.
  intros H. destruct (sub_swap x y) as [E | E]; [| exact E].
  unfold float_eq. rewrite E.
  assert (N : is_nan (- (x - y)) = false).
  { destruct (is_nan (- (x - y))) eqn:N; [| reflexivity].
    apply is_nan_spec in N. rewrite opp_spec in N.
    assert (N' : Prim2SF (x - y) = S754_nan)
      by (destruct (Prim2SF (x - y)); simpl in N; congruence).
    apply is_nan_spec in N'. congruence. }
  unfold is_nan in N. apply negb_false_iff in N. exact N.
Qed.

Lemma eq_one_not_nan (p : float) : Py.eq_one p = true -> is_nan p = false.
Proof.
  intros H. destruct (is_nan p) eqn:N; [| reflexivity].
  apply is_nan_eq in N. subst p. discriminate H.
Qed.

Lemma get_best_time_not_nan (r : Row) (t : float) :
  get_best_time r = Some t -> is_nan t = false.
Proof.
  unfold get_best_time, Py.notna, Py.isna.
  destruct (is_nan (Q3Seconds r)) eqn:E3; simpl.
  - destruct (is_nan (Q2Seconds r)) eqn:E2; simpl.
    + destruct (is_nan (Q1Seconds r)) eqn:E1; simpl; congruence.
    + congruence.
  - congruence.
Qed.

(** ** C1: the gap to pole *)

(** C1.  [calculate_gap_to_pole position best_time pole_time] is NaN when
    [position] is null; it is exactly [0.0] when [position == 1], whatever the
    two times are; it is NaN when [position] is a number other than 1 and
    [best_time] or [pole_time] is null; otherwise it is
    [best_time - pole_time]. *)
Theorem calculate_gap_to_pole_spec
    (position best_time pole_time : option float) :
  (Py.isna position = true ->
   calculate_gap_to_pole position best_time pole_time = nan)
  /\ (forall p, position = Some p -> Py.eq_one p = true ->
      calculate_gap_to_pole position best_time pole_time = 0%float)
  /\ (forall p, position = Some p -> is_nan p = false ->
      Py.eq_one p = false ->
      Py.isna best_time = true \/ Py.isna pole_time = true ->
      calculate_gap_to_pole position best_time pole_time = nan)
  /\ (forall p b t, position = Some p -> is_nan p = false ->
      Py.eq_one p = false ->
      best_time = Some b -> pole_time = Some t ->
      is_nan b = false -> is_nan t = false ->
      calculate_gap_to_pole position best_time pole_time = (b - t)%float).
Proof.
  repeat split.
  - destruct position as [p |]; simpl; intros H; [rewrite H |]; reflexivity.
  - intros p -> H1. simpl. rewrite (eq_one_not_nan p H1), H1. reflexivity.
  - intros p -> Hn H1 Hnull. simpl. rewrite Hn, H1.
    destruct best_time as [b |], pole_time as [t |]; try reflexivity.
    destruct (is_nan t) eqn:Ht; [reflexivity |].
    destruct Hnull as [Hb | Hp]; simpl in *; [| congruence].
    apply is_nan_eq in Hb. subst b. apply sub_nan_l.
  - intros p b t -> Hn H1 -> -> _ Ht. simpl. rewrite Hn, H1, Ht. reflexivity.
Qed.

Lemma calculate_gap_to_pole_spec_witness :
  calculate_gap_to_pole None (Some 80.5%float) (Some 80%float) = nan
  /\ calculate_gap_to_pole (Some 1%float) None None = 0%float
  /\ calculate_gap_to_pole (Some 2%float) None (Some 80%float) = nan
  /\ calculate_gap_to_pole (Some 2%float) (Some 80.5%float) (Some 80%float)
     = (80.5 - 80)%float.
Proof.
  split; [| split; [| split]].
  - apply (proj1 (calculate_gap_to_pole_spec None (Some 80.5%float)
                    (Some 80%float))).
    reflexivity.
  - apply (proj1 (proj2 (calculate_gap_to_pole_spec (Some 1%float) None None))
             1%float); reflexivity.
  - apply (proj1 (proj2 (proj2 (calculate_gap_to_pole_spec (Some 2%float) None
                                  (Some 80%float)))) 2%float);
      try reflexivity.
    left; reflexivity.
  - apply (proj2 (proj2 (proj2 (calculate_gap_to_pole_spec (Some 2%float)
                                  (Some 80.5%float) (Some 80%float))))
             2%float 80.5%float 80%float); reflexivity.
Defined.

(** ** [unique] and the dictionary *)

Section UniqueFacts.

Variable A : Type.
Variable eqb : A -> A -> bool.
Hypothesis eqb_eq : forall x y, eqb x y = true <-> x = y.

Lemma mem_In (x : A) (l : list A) : Py.mem eqb x l = true <-> In x l.
Proof.
  unfold Py.mem. rewrite existsb_exists. split.
  - intros (y & Hy & E). apply eqb_eq in E. subst y. exact Hy.
  - intros H. exists x. split; [exact H | now apply eqb_eq].
Qed.

Lemma mem_false (x : A) (l : list A) : Py.mem eqb x l = false <-> ~ In x l.
Proof.
  rewrite <- mem_In. destruct (Py.mem eqb x l); split; congruence.
Qed.

Lemma In_unique_from (x : A) (l seen : list A) :
  In x (Py.unique_from eqb seen l) <-> In x l /\ ~ In x seen.
Proof.
  revert seen. induction l as [| a l IH]; intros seen; simpl.
  - tauto.
  - destruct (Py.mem eqb a seen) eqn:M.
    + apply mem_In in M. rewrite IH. split.
      * tauto.
      * intros [[-> | H] N]; tauto.
    + apply mem_false in M. simpl. rewrite IH. simpl. split.
      * intros [-> | [H N]]; [tauto |]. split; [tauto |]. tauto.
      * intros [[-> | H] N]; [tauto |].
        destruct (eqb a x) eqn:E.
        -- apply eqb_eq in E. tauto.
        -- right. split; [exact H |]. intros [-> | N']; [| tauto].
           assert (eqb x x = true) by now apply eqb_eq. congruence.
Qed.

Lemma NoDup_unique_from (l seen : list A) :
  NoDup (Py.unique_from eqb seen l).
Proof.
  revert seen. induction l as [| a l IH]; intros seen; simpl.
  - constructor.
  - destruct (Py.mem eqb a seen); [apply IH |].
    constructor; [| apply IH].
    rewrite In_unique_from. simpl. tauto.
Qed.

Lemma In_unique (x : A) (l : list A) : In x (Py.unique eqb l) <-> In x l.
Proof. unfold Py.unique. rewrite In_unique_from. simpl. tauto. Qed.

Lemma NoDup_unique (l : list A) : NoDup (Py.unique eqb l).
Proof. apply NoDup_unique_from. Qed.

(** The dictionary: a key that is set reads back, the others are kept. *)
Variable V : Type.

Lemma get_set (d : list (A * V)) (k k' : A) (v : V) :
  Py.get eqb (Py.set eqb d k v) k'
  = if eqb k' k then Some v else Py.get eqb d k'.
Proof.
  induction d as [| [k0 v0] d IH]; simpl.
  - reflexivity.
  - destruct (eqb k k0) eqn:E; simpl.
    + apply eqb_eq in E. subst k0. destruct (eqb k' k); reflexivity.
    + destruct (eqb k' k0) eqn:E'.
      * apply eqb_eq in E'. subst k0.
        destruct (eqb k' k) eqn:E''; [| reflexivity].
        apply eqb_eq in E''. subst k'.
        assert (eqb k k = true) by now apply eqb_eq. congruence.
      * exact IH.
Qed.

Lemma get_default_const (l : list A) (k : A) (v : V) :
  Py.get_default eqb (map (fun x => (x, v)) l) k v = v.
Proof.
  unfold Py.get_default.
  induction l as [| a l IH]; simpl; [reflexivity |].
  destruct (eqb k a); [reflexivity | exact IH].
Qed.

Lemma get_const (l : list A) (k : A) (v w : V) :
  Py.get eqb (map (fun x => (x, v)) l) k = Some w -> w = v.
Proof.
  induction l as [| a l IH]; simpl; [discriminate |].
  destruct (eqb k a); [congruence | exact IH].
Qed.

End UniqueFacts.

Lemma key_eqb_eq (k1 k2 : Z * string) : key_eqb k1 k2 = true <-> k1 = k2.
Proof.
  destruct k1 as [y1 d1], k2 as [y2 d2]. unfold key_eqb. simpl.
  rewrite andb_true_iff, Z.eqb_eq, String.eqb_eq. split.
  - intros [-> ->]. reflexivity.
  - intros E. inversion E. tauto.
Qed.

(** ** C2: teammate gaps *)

Lemma teammate_gaps_not_two (team_data : list Row) :
  List.length (Py.unique String.eqb (map BroadcastName team_data)) <> 2%nat ->
  calculate_teammate_gaps team_data
  = map (fun d => (d, nan))
      (Py.unique String.eqb (map BroadcastName team_data)).
Proof.
  unfold calculate_teammate_gaps.
  destruct (Py.unique String.eqb (map BroadcastName team_data))
    as [| a [| b [| c l]]]; simpl; intros H; try reflexivity.
  congruence.
Qed.

Lemma teammate_gaps_two (team_data : list Row) (a b : string) (ra rb : Row) :
  Py.unique String.eqb (map BroadcastName team_data) = [a; b] ->
  first_row a team_data = Some ra ->
  first_row b team_data = Some rb ->
  calculate_teammate_gaps team_data
  = match get_best_time ra, get_best_time rb with
    | Some ta, Some tb => [(a, (ta - tb)%float); (b, (tb - ta)%float)]
    | _, _ => [(a, nan); (b, nan)]
    end.
Proof.
  intros U Ha Hb. unfold calculate_teammate_gaps. rewrite U.
  unfold first_row in Ha, Hb.
  destruct (filter (fun r => (BroadcastName r =? a)%string) team_data)
    as [| ra' la]; [discriminate |].
  destruct (filter (fun r => (BroadcastName r =? b)%string) team_data)
    as [| rb' lb]; [discriminate |].
  simpl in Ha, Hb. inversion Ha; inversion Hb; subst ra' rb'.
  destruct (get_best_time ra) as [ta |], (get_best_time rb) as [tb |];
    try reflexivity.
  assert (N : NoDup [a; b])
    by (rewrite <- U; apply NoDup_unique, String.eqb_eq).
  assert (Hab : (b =? a)%string = false).
  { apply String.eqb_neq. intros ->. inversion N as [| ? ? Hin _].
    apply Hin. left. reflexivity. }
  simpl. rewrite String.eqb_refl. simpl. rewrite Hab, String.eqb_refl.
  reflexivity.
Qed.

(** C2.  For a team with exactly two drivers A and B (in order of first
    appearance) whose best times are both valid, [gap(A)] is
    [bestTime(A) - bestTime(B)], [gap(B)] is [bestTime(B) - bestTime(A)], and
    [gap(B)] is [-gap(A)]: the same float up to the sign of a zero, and equal
    under Python's [==] whenever the difference is a number.  When either
    best time is null both gaps are NaN.  For any other number of drivers
    every gap is NaN and [hasTeammateData] is false. *)
Theorem calculate_teammate_gaps_spec (team_data : list Row) :
  (forall a b ra rb,
     Py.unique String.eqb (map BroadcastName team_data) = [a; b] ->
     first_row a team_data = Some ra ->
     first_row b team_data = Some rb ->
     (forall ta tb,
        get_best_time ra = Some ta -> get_best_time rb = Some tb ->
        teammate_gap_of team_data a = (ta - tb)%float
        /\ teammate_gap_of team_data b = (tb - ta)%float
        /\ (teammate_gap_of team_data b = (- teammate_gap_of team_data a)%float
            \/ float_eq (teammate_gap_of team_data b)
                 (- teammate_gap_of team_data a) = true)
        /\ (is_nan (ta - tb) = false ->
            float_eq (teammate_gap_of team_data b)
              (- teammate_gap_of team_data a) = true))
     /\ (get_best_time ra = None \/ get_best_time rb = None ->
         teammate_gap_of team_data a = nan
         /\ teammate_gap_of team_data b = nan))
  /\ (List.length (Py.unique String.eqb (map BroadcastName team_data))
      <> 2%nat ->
      forall d event_name pos gap,
        teammate_gap_of team_data d = nan
        /\ hasTeammateData
             (create_event_summary event_name pos gap
                (teammate_gap_of team_data d)) = false).
Proof.
  split.
  - intros a b ra rb U Ha Hb.
    assert (N : NoDup [a; b])
      by (rewrite <- U; apply NoDup_unique, String.eqb_eq).
    assert (Hab : (b =? a)%string = false).
    { apply String.eqb_neq. intros ->. inversion N as [| ? ? Hin _].
      apply Hin. left. reflexivity. }
    unfold teammate_gap_of, Py.get_default.
    rewrite (teammate_gaps_two team_data a b ra rb U Ha Hb).
    split.
    + intros ta tb -> ->. simpl. rewrite String.eqb_refl, Hab, String.eqb_refl.
      repeat split.
      * apply sub_swap.
      * apply sub_swap_number.
    + intros [E | E].
      * rewrite E. simpl. rewrite String.eqb_refl, Hab, String.eqb_refl.
        split; reflexivity.
      * rewrite E. destruct (get_best_time ra); simpl;
          rewrite String.eqb_refl, Hab, String.eqb_refl; split; reflexivity.
  - intros H d event_name pos gap. unfold teammate_gap_of.
    rewrite (teammate_gaps_not_two team_data H).
    rewrite get_default_const. split; reflexivity.
Qed.

Lemma calculate_teammate_gaps_spec_witness :
  (teammate_gap_of Sample.team_T1_R1 "A" = (80 - 80.25)%float
   /\ teammate_gap_of Sample.team_T1_R1 "B" = (80.25 - 80)%float
   /\ float_eq (teammate_gap_of Sample.team_T1_R1 "B")
        (- teammate_gap_of Sample.team_T1_R1 "A") = true)
  /\ (teammate_gap_of Sample.team_T2_R1 "C" = nan
      /\ hasTeammateData
           (create_event_summary "R1" 3 2
              (teammate_gap_of Sample.team_T2_R1 "C")) = false).
Proof.
  split.
  - destruct (proj1 (calculate_teammate_gaps_spec Sample.team_T1_R1)
                "A" "B"
                (Sample.row "A" "T1" 1 "R1" 81 80.5 80)
                (Sample.row "B" "T1" 2 "R1" 81.5 80.75 80.25)
                eq_refl eq_refl eq_refl) as [H _].
    destruct (H 80%float 80.25%float eq_refl eq_refl) as (H1 & H2 & _ & H4).
    split; [exact H1 | split; [exact H2 | apply H4; reflexivity]].
  - apply (proj2 (calculate_teammate_gaps_spec Sample.team_T2_R1)).
    simpl. discriminate.
Defined.

(** ** The event loop *)

Lemma process_event_fields
    (year_data : list Row) (d t : string) (e : Acc.t) (ev : string) :
  Acc.year (process_event year_data d t e ev) = Acc.year e
  /\ Acc.driver (process_event year_data d t e ev) = Acc.driver e
  /\ Acc.team (process_event year_data d t e ev) = Acc.team e
  /\ Acc.events (process_event year_data d t e ev)
     = Acc.events e ++ [event_summary_of year_data d t ev].
Proof.
  unfold process_event, event_summary_of, first_row.
  destruct (filter (fun r => (BroadcastName r =? d)%string)
              (rows_of_event year_data ev)) as [| r rs].
  - repeat split.
  - unfold summarize_present. cbv zeta. cbn [hd_error fst].
    set (g := calculate_gap_to_pole _ _ _). clearbody g.
    set (gaps := calculate_teammate_gaps _). clearbody gaps.
    destruct (Py.get String.eqb gaps d) as [tg |];
      try destruct (negb (Py.isna (Some tg)));
      destruct (negb (Py.isna (Some g))); repeat split.
Qed.

Lemma filter_snoc {A : Type} (f : A -> bool) (l : list A) (x : A) :
  filter f (l ++ [x]) = filter f l ++ (if f x then [x] else []).
Proof. rewrite filter_app. reflexivity. Qed.

Lemma process_event_consistent
    (year_data : list Row) (d t : string) (e : Acc.t) (ev : string) :
  acc_consistent e -> acc_consistent (process_event year_data d t e ev).
Proof.
  intros (Hp & Hg & Ht & Hc & Hn).
  unfold acc_consistent, process_event.
  destruct (filter (fun r => (BroadcastName r =? d)%string)
              (rows_of_event year_data ev)) as [| r rs].
  - simpl. rewrite !map_app. simpl.
    rewrite !filter_snoc, !length_app, Hp, Hg, Ht, Hc, Hn. simpl.
    rewrite !app_nil_r. repeat split; lia.
  - unfold summarize_present, Py.get_default. cbv zeta.
    set (g := calculate_gap_to_pole _ _ _). clearbody g.
    set (gaps := calculate_teammate_gaps _). clearbody gaps.
    set (pos := if Py.notna _ then _ else _). clearbody pos.
    destruct (Py.get String.eqb gaps d) as [tg |].
    + destruct (is_nan g) eqn:Eg, (is_nan tg) eqn:Et; simpl;
        rewrite ?Eg, ?Et; simpl; rewrite !map_app; simpl;
        rewrite !filter_snoc, !length_app, Hp, Hg, Ht, Hc, Hn;
        unfold not_nan; simpl; rewrite ?Eg, ?Et; simpl;
        rewrite ?app_nil_r; repeat split; lia.
    + destruct (is_nan g) eqn:Eg; simpl;
        rewrite ?Eg; simpl; rewrite !map_app; simpl;
        rewrite !filter_snoc, !length_app, Hp, Hg, Ht, Hc, Hn;
        unfold not_nan; simpl; rewrite ?Eg; simpl;
        rewrite ?app_nil_r; repeat split; lia.
Qed.

Lemma event_loop_fields
    (year_data : list Row) (d t : string) (evs : list string) (e : Acc.t) :
  let e' := fold_left (process_event year_data d t) evs e in
  Acc.year e' = Acc.year e
  /\ Acc.driver e' = Acc.driver e
  /\ Acc.team e' = Acc.team e
  /\ Acc.events e'
     = Acc.events e ++ map (event_summary_of year_data d t) evs.
Proof.
  revert e. induction evs as [| ev evs IH]; intros e; simpl.
  - rewrite app_nil_r. repeat split.
  - destruct (IH (process_event year_data d t e ev)) as (Hy & Hd & Ht & He).
    destruct (process_event_fields year_data d t e ev)
      as (Hy' & Hd' & Ht' & He').
    rewrite Hy, Hd, Ht, He, Hy', Hd', Ht', He', <- app_assoc.
    repeat split.
Qed.

Lemma event_loop_consistent
    (year_data : list Row) (d t : string) (evs : list string) (e : Acc.t) :
  acc_consistent e ->
  acc_consistent (fold_left (process_event year_data d t) evs e).
Proof.
  revert e. induction evs as [| ev evs IH]; intros e H; simpl.
  - exact H.
  - apply IH, process_event_consistent, H.
Qed.

Lemma create_driver_entry_consistent (y : Z) (d t : string) :
  acc_consistent (create_driver_entry y d t).
Proof. repeat split. Qed.

(** ** The driver and year loops *)

Lemma process_year_entries
    (set_iter : list string -> list string) (quali_data : list Row)
    (timeline_data : list Acc.t) (y : Z) :
  process_year set_iter quali_data (build_driver_team_mapping quali_data)
    timeline_data y
  = timeline_data
      ++ season_entries quali_data y (set_iter (season_drivers quali_data y)).
Proof.
  unfold process_year, season_drivers.
  generalize (set_iter
                (Py.unique String.eqb
                   (map BroadcastName (rows_of_year quali_data y)))).
  intros ds. revert timeline_data.
  induction ds as [| d ds IH]; intros tl; simpl.
  - rewrite app_nil_r. reflexivity.
  - rewrite IH. unfold season_entries at 2. simpl.
    destruct (Py.get key_eqb (build_driver_team_mapping quali_data) (y, d));
      simpl.
    + rewrite <- app_assoc. reflexivity.
    + reflexivity.
Qed.

Lemma year_loop_entries
    (set_iter : list string -> list string) (quali_data : list Row)
    (ys : list Z) (timeline_data : list Acc.t) :
  fold_left
    (process_year set_iter quali_data (build_driver_team_mapping quali_data))
    ys timeline_data
  = timeline_data
      ++ flat_map
           (fun y =>
              season_entries quali_data y
                (set_iter (season_drivers quali_data y)))
           ys.
Proof.
  revert timeline_data. induction ys as [| y ys IH]; intros tl; simpl.
  - rewrite app_nil_r. reflexivity.
  - rewrite IH, process_year_entries, <- app_assoc. reflexivity.
Qed.

Lemma process_qualifying_data_entries
    (set_iter : list string -> list string) (np_mean : list float -> float)
    (quali_data : list Row) :
  process_qualifying_data set_iter np_mean quali_data
  = map (finalize np_mean)
      (flat_map
         (fun y =>
            season_entries quali_data y
              (set_iter (season_drivers quali_data y)))
         (Py.unique Z.eqb (map Year quali_data))).
Proof.
  unfold process_qualifying_data. rewrite year_loop_entries. reflexivity.
Qed.

(** ** The driver-to-team mapping is the first-seen team *)

Lemma mapping_rows_loop (yr : Z) (rows : list Row)
    (mapping : list ((Z * string) * string)) (y : Z) (d : string) :
  Py.get key_eqb
    (fold_left
       (fun mapping row =>
          match Py.get key_eqb mapping (yr, BroadcastName row) with
          | Some _ => mapping
          | None =>
              Py.set key_eqb mapping (yr, BroadcastName row) (TeamName row)
          end)
       rows mapping)
    (y, d)
  = match Py.get key_eqb mapping (y, d) with
    | Some t => Some t
    | None =>
        if (y =? yr)%Z then option_map TeamName (first_row d rows) else None
    end.
Proof.
  revert mapping. induction rows as [| row rows IH]; intros mapping.
  - simpl. destruct (Py.get key_eqb mapping (y, d)); [reflexivity |].
    destruct (y =? yr)%Z; reflexivity.
  - cbn [fold_left]. rewrite IH. clear IH.
    unfold first_row. cbn [filter].
    destruct (Py.get key_eqb mapping (yr, BroadcastName row)) eqn:G.
    + destruct (Py.get key_eqb mapping (y, d)) eqn:G'; [reflexivity |].
      destruct (y =? yr)%Z eqn:Ey; [| reflexivity].
      destruct (BroadcastName row =? d)%string eqn:Ed; [| reflexivity].
      apply Z.eqb_eq in Ey. apply String.eqb_eq in Ed. subst. congruence.
    + rewrite (get_set _ key_eqb key_eqb_eq).
      destruct (key_eqb (y, d) (yr, BroadcastName row)) eqn:K.
      * apply key_eqb_eq in K. inversion K; subst.
        rewrite G, Z.eqb_refl, String.eqb_refl. reflexivity.
      * destruct (Py.get key_eqb mapping (y, d)); [reflexivity |].
        destruct (y =? yr)%Z eqn:Ey; [| reflexivity].
        destruct (BroadcastName row =? d)%string eqn:Ed; [| reflexivity].
        apply Z.eqb_eq in Ey. apply String.eqb_eq in Ed. subst.
        assert (key_eqb (yr, BroadcastName row) (yr, BroadcastName row) = true)
          by now apply key_eqb_eq.
        congruence.
Qed.

Lemma mapping_years_loop (quali_data : list Row) (ys : list Z)
    (mapping : list ((Z * string) * string)) (y : Z) (d : string) :
  Py.get key_eqb
    (fold_left
       (fun mapping year =>
          fold_left
            (fun mapping row =>
               let key := (year, BroadcastName row) in
               match Py.get key_eqb mapping key with
               | Some _ => mapping
               | None => Py.set key_eqb mapping key (TeamName row)
               end)
            (rows_of_year quali_data year) mapping)
       ys mapping)
    (y, d)
  = match Py.get key_eqb mapping (y, d) with
    | Some t => Some t
    | None =>
        if existsb (Z.eqb y) ys then first_seen_team quali_data y d else None
    end.
Proof.
  revert mapping. induction ys as [| yr ys IH]; intros mapping.
  - simpl. destruct (Py.get key_eqb mapping (y, d)); reflexivity.
  - cbn [fold_left existsb]. rewrite IH. clear IH. cbv zeta.
    rewrite mapping_rows_loop.
    destruct (Py.get key_eqb mapping (y, d)); [reflexivity |].
    destruct (y =? yr)%Z eqn:Ey; simpl.
    + apply Z.eqb_eq in Ey. subst yr. unfold first_seen_team.
      destruct (option_map TeamName (first_row d (rows_of_year quali_data y)));
        [reflexivity |].
      destruct (existsb (Z.eqb y) ys); reflexivity.
    + reflexivity.
Qed.

Lemma rows_of_year_nil (quali_data : list Row) (y : Z) :
  ~ In y (map Year quali_data) -> rows_of_year quali_data y = [].
Proof.
  unfold rows_of_year. induction quali_data as [| r q IH]; simpl; intros H.
  - reflexivity.
  - destruct (Year r =? y)%Z eqn:E.
    + apply Z.eqb_eq in E. tauto.
    + apply IH. tauto.
Qed.

Lemma driver_team_mapping_spec (quali_data : list Row) (y : Z) (d : string) :
  Py.get key_eqb (build_driver_team_mapping quali_data) (y, d)
  = first_seen_team quali_data y d.
Proof.
  unfold build_driver_team_mapping. rewrite mapping_years_loop. simpl.
  destruct (existsb (Z.eqb y) (Py.unique Z.eqb (map Year quali_data))) eqn:E.
  - reflexivity.
  - unfold first_seen_team. rewrite rows_of_year_nil; [reflexivity |].
    intros H. apply (In_unique _ Z.eqb Z.eqb_eq) in H.
    assert (X : existsb (Z.eqb y) (Py.unique Z.eqb (map Year quali_data))
                = true).
    { apply existsb_exists. exists y. split; [exact H | apply Z.eqb_refl]. }
    congruence.
Qed.

(** ** The shape of an output entry *)

Lemma In_season_entries (quali_data : list Row) (y : Z)
    (drivers : list string) (a : Acc.t) :
  In a (season_entries quali_data y drivers) ->
  exists d t,
    In d drivers
    /\ first_seen_team quali_data y d = Some t
    /\ a = fold_left (process_event (rows_of_year quali_data y) d t)
             (season_events quali_data y) (create_driver_entry y d t).
Proof.
  unfold season_entries. rewrite in_flat_map. intros (d & Hd & H).
  rewrite driver_team_mapping_spec in H.
  destruct (first_seen_team quali_data y d) as [t |] eqn:E; simpl in H.
  - destruct H as [<- | []]. exists d, t. repeat split; assumption.
  - contradiction.
Qed.

Lemma In_process_qualifying_data
    (set_iter : list string -> list string) (np_mean : list float -> float)
    (quali_data : list Row) (e : TimelineEntry) :
  In e (process_qualifying_data set_iter np_mean quali_data) ->
  exists y d t,
    In y (map Year quali_data)
    /\ In d (set_iter (season_drivers quali_data y))
    /\ first_seen_team quali_data y d = Some t
    /\ e = finalize np_mean
             (fold_left (process_event (rows_of_year quali_data y) d t)
                (season_events quali_data y) (create_driver_entry y d t)).
Proof.
  rewrite process_qualifying_data_entries, in_map_iff.
  intros (a & <- & Ha). apply in_flat_map in Ha. destruct Ha as (y & Hy & Ha).
  apply In_season_entries in Ha. destruct Ha as (d & t & Hd & Ht & ->).
  exists y, d, t. repeat split; try assumption.
  apply (In_unique _ Z.eqb Z.eqb_eq). exact Hy.
Qed.

Lemma filter_idempotent {A : Type} (f : A -> bool) (l : list A) :
  filter f (filter f l) = filter f l.
Proof.
  induction l as [| x l IH]; simpl; [reflexivity |].
  destruct (f x) eqn:E; simpl; rewrite ?E, IH; reflexivity.
Qed.

Lemma finalize_consistent (np_mean : list float -> float) (a : Acc.t) :
  acc_consistent a ->
  year (finalize np_mean a) = Acc.year a
  /\ driver (finalize np_mean a) = Acc.driver a
  /\ team (finalize np_mean a) = Acc.team a
  /\ events (finalize np_mean a) = Acc.events a
  /\ avgQualifyingPosition (finalize np_mean a)
     = mean_of_valid np_mean (map position (Acc.events a))
  /\ avgGapToPole (finalize np_mean a)
     = mean_of_valid np_mean (map gapToPole (Acc.events a))
  /\ avgTeammateGap (finalize np_mean a)
     = mean_of_valid np_mean (map teammateGap (Acc.events a))
  /\ dataCompleteness (finalize np_mean a)
     = (if (0 <? List.length (Acc.events a))%nat
        then (inject_Z
                (Z.of_nat
                   (List.length (filter hasTeammateData (Acc.events a))))
              / inject_Z (Z.of_nat (List.length (Acc.events a))))%Q
        else 0%Q).
Proof.
  intros (Hp & Hg & Ht & Hc & Hn). unfold finalize, mean_of_valid. simpl.
  rewrite Hp, Hg, Ht, Hc, Hn.
  change (fun x : float => negb (is_nan x)) with not_nan.
  rewrite !filter_idempotent. repeat split.
Qed.

(** Every entry of the output is the finalized accumulator of one driver in
    one season, seeded with the first-seen team; its events are the summaries
    of the season's events in order. *)
Lemma entry_shape
    (set_iter : list string -> list string) (np_mean : list float -> float)
    (quali_data : list Row) (e : TimelineEntry) :
  In e (process_qualifying_data set_iter np_mean quali_data) ->
  In (year e) (map Year quali_data)
  /\ In (driver e) (set_iter (season_drivers quali_data (year e)))
  /\ first_seen_team quali_data (year e) (driver e) = Some (team e)
  /\ events e
     = map (event_summary_of (rows_of_year quali_data (year e)) (driver e)
              (team e))
         (season_events quali_data (year e))
  /\ avgQualifyingPosition e
     = mean_of_valid np_mean (map position (events e))
  /\ avgGapToPole e = mean_of_valid np_mean (map gapToPole (events e))
  /\ avgTeammateGap e = mean_of_valid np_mean (map teammateGap (events e))
  /\ dataCompleteness e
     = (if (0 <? List.length (events e))%nat
        then (inject_Z
                (Z.of_nat (List.length (filter hasTeammateData (events e))))
              / inject_Z (Z.of_nat (List.length (events e))))%Q
        else 0%Q)
  /\ teamStintInfo e = None.
Proof.
  intros H. apply In_process_qualifying_data in H.
  destruct H as (y & d & t & Hy & Hd & Ht & ->).
  set (a := fold_left _ _ _).
  assert (C : acc_consistent a)
    by apply event_loop_consistent, create_driver_entry_consistent.
  destruct (finalize_consistent np_mean a C)
    as (Fy & Fd & Ft & Fe & Fp & Fg & Ftg & Fc).
  destruct (event_loop_fields (rows_of_year quali_data y) d t
              (season_events quali_data y) (create_driver_entry y d t))
    as (Ly & Ld & Lt & Le).
  fold a in Ly, Ld, Lt, Le. simpl in Ly, Ld, Lt, Le.
  rewrite Fy, Fd, Ft, Fe, Fp, Fg, Ftg, Fc, Ly, Ld, Lt, Le.
  repeat split; assumption.
Qed.

(** ** C6: averages *)

Lemma mean_of_valid_non_null (np_mean : list float -> float)
    (values : list float) :
  mean_of_non_null np_mean values (mean_of_valid np_mean values).
Proof.
  unfold mean_of_non_null, mean_of_valid.
  destruct (filter not_nan values); split; congruence.
Qed.

(** C6.  In every entry of the output each of [avgQualifyingPosition],
    [avgGapToPole] and [avgTeammateGap] is [np.mean] of the non-null values
    of the entry's events (positions, gaps to pole, teammate gaps), and is
    NaN, not zero, when there is no such value. *)
Theorem averages_over_non_null_values
    (set_iter : list string -> list string) (np_mean : list float -> float)
    (quali_data : list Row) (e : TimelineEntry) :
  In e (process_qualifying_data set_iter np_mean quali_data) ->
  mean_of_non_null np_mean (map position (events e))
    (avgQualifyingPosition e)
  /\ mean_of_non_null np_mean (map gapToPole (events e)) (avgGapToPole e)
  /\ mean_of_non_null np_mean (map teammateGap (events e))
       (avgTeammateGap e).
Proof.
  intros H.
  destruct (entry_shape set_iter np_mean quali_data e H)
    as (_ & _ & _ & _ & -> & -> & -> & _).
  repeat split; apply mean_of_valid_non_null.
Qed.

Lemma averages_over_non_null_values_witness :
  (avgQualifyingPosition Sample.entry_C = Sample.mean_seq [3%float]
   /\ avgTeammateGap Sample.entry_C = nan)
  /\ float_eq (avgTeammateGap Sample.entry_C) 0 = false.
Proof.
  assert (H : In Sample.entry_C
                (process_qualifying_data Sample.insertion_order
                   Sample.mean_seq Sample.season_2022))
    by (vm_compute; tauto).
  destruct (averages_over_non_null_values Sample.insertion_order
              Sample.mean_seq Sample.season_2022 Sample.entry_C H)
    as ((_ & Hp) & _ & (Ht & _)).
  split; [split |].
  - apply Hp. vm_compute. discriminate.
  - apply Ht. reflexivity.
  - reflexivity.
Defined.

(** ** C7: data completeness *)

Lemma filter_length_le {A : Type} (f : A -> bool) (l : list A) :
  (List.length (filter f l) <= List.length l)%nat.
Proof.
  induction l as [| x l IH]; simpl; [lia |].
  destruct (f x); simpl; lia.
Qed.

Lemma ratio_in_unit_interval (c n : nat) :
  (c <= n)%nat -> (0 < n)%nat ->
  (0 <= inject_Z (Z.of_nat c) / inject_Z (Z.of_nat n)
   /\ inject_Z (Z.of_nat c) / inject_Z (Z.of_nat n) <= 1)%Q.
Proof.
  intros Hc Hn.
  assert (P : (0 < inject_Z (Z.of_nat n))%Q)
    by (change 0%Q with (inject_Z 0); rewrite <- Zlt_Qlt; lia).
  split.
  - apply Qle_shift_div_l; [exact P |]. rewrite Qmult_0_l.
    change 0%Q with (inject_Z 0). rewrite <- Zle_Qle. lia.
  - apply Qle_shift_div_r; [exact P |]. rewrite Qmult_1_l.
    rewrite <- Zle_Qle. lia.
Qed.



(** ** C8: the events of an entry *)

Section FirstEncounter.

Variable A : Type.
Variable eqb : A -> A -> bool.
Hypothesis eqb_eq : forall x y, eqb x y = true <-> x = y.

Lemma mem_ext (x : A) (seen seen' : list A) :
  (forall z, In z seen <-> In z seen') ->
  Py.mem eqb x seen = Py.mem eqb x seen'.
Proof.
  intros H.
  destruct (Py.mem eqb x seen) eqn:M1, (Py.mem eqb x seen') eqn:M2;
    try reflexivity.
  - apply (mem_In _ eqb eqb_eq) in M1. apply (mem_false _ eqb eqb_eq) in M2.
    exfalso. apply M2, H, M1.
  - apply (mem_In _ eqb eqb_eq) in M2. apply (mem_false _ eqb eqb_eq) in M1.
    exfalso. apply M1, H, M2.
Qed.

(** Only the content of the table of seen values matters. *)
Lemma unique_from_ext (l seen seen' : list A) :
  (forall z, In z seen <-> In z seen') ->
  Py.unique_from eqb seen l = Py.unique_from eqb seen' l.
Proof.
  revert seen seen'. induction l as [| a l IH]; intros seen seen' H; simpl.
  - reflexivity.
  - rewrite (mem_ext a seen seen' H). destruct (Py.mem eqb a seen').
    + apply IH, H.
    + f_equal. apply IH. intros z. simpl. rewrite H. tauto.
Qed.

Lemma filter_all {B : Type} (f : B -> bool) (l : list B) :
  (forall x, In x l -> f x = true) -> filter f l = l.
Proof.
  induction l as [| x l IH]; simpl; intros H; [reflexivity |].
  rewrite (H x) by tauto. f_equal. apply IH. intros y Hy. apply H. tauto.
Qed.

Lemma unique_from_seen (x : A) (l seen : list A) :
  Py.unique_from eqb (x :: seen) l
  = filter (fun y => negb (eqb x y)) (Py.unique_from eqb seen l).
Proof.
  revert seen. induction l as [| a l IH]; intros seen; simpl.
  - reflexivity.
  - destruct (eqb a x) eqn:Eax; simpl.
    + apply eqb_eq in Eax. subst a.
      destruct (Py.mem eqb x seen); [apply IH |].
      simpl. assert (R : eqb x x = true) by now apply eqb_eq.
      rewrite R. simpl. symmetry. apply filter_all.
      intros y Hy. apply (In_unique_from _ eqb eqb_eq) in Hy.
      destruct (eqb x y) eqn:E; [| reflexivity].
      apply eqb_eq in E. subst y. simpl in Hy. tauto.
    + destruct (Py.mem eqb a seen); [apply IH |].
      simpl. destruct (eqb x a) eqn:Exa.
      * apply eqb_eq in Exa. subst a.
        assert (eqb x x = true) by now apply eqb_eq. congruence.
      * simpl. f_equal. rewrite <- IH. apply unique_from_ext.
        intros z. simpl. tauto.
Qed.

(** [unique] keeps the first occurrence of each value and drops the later
    ones. *)
Lemma unique_cons (x : A) (l : list A) :
  Py.unique eqb (x :: l)
  = x :: filter (fun y => negb (eqb x y)) (Py.unique eqb l).
Proof. unfold Py.unique. simpl. f_equal. apply unique_from_seen. Qed.

End FirstEncounter.

Lemma event_summary_round (year_data : list Row) (d t ev : string) :
  round (event_summary_of year_data d t ev) = ev.
Proof.
  unfold event_summary_of.
  destruct (first_row d (rows_of_event year_data ev)); reflexivity.
Qed.

Lemma In_rows_of_year (quali_data : list Row) (y : Z) (r : Row) :
  In r (rows_of_year quali_data y) <-> In r quali_data /\ Year r = y.
Proof.
  unfold rows_of_year. rewrite filter_In, Z.eqb_eq. tauto.
Qed.

Lemma entry_rounds
    (set_iter : list string -> list string) (np_mean : list float -> float)
    (quali_data : list Row) (e : TimelineEntry) :
  In e (process_qualifying_data set_iter np_mean quali_data) ->
  map round (events e) = season_events quali_data (year e).
Proof.
  intros H.
  destruct (entry_shape set_iter np_mean quali_data e H)
    as (_ & _ & _ & He & _).
  rewrite He, map_map. rewrite <- (map_id (season_events _ _)) at 2.
  apply map_ext. intros ev. apply event_summary_round.
Qed.

(** C8.  In every entry of the output the rounds of the events are the
    distinct event names of the season's rows in the order in which each name
    first occurs in the input table ([Py.unique], see [unique_cons]): each
    name once, no other order applied, and the same list for every driver
    of the season. *)
Theorem events_in_first_encounter_order
    (set_iter : list string -> list string) (np_mean : list float -> float)
    (quali_data : list Row) (e : TimelineEntry) :
  In e (process_qualifying_data set_iter np_mean quali_data) ->
  map round (events e)
  = Py.unique String.eqb
      (map EventName (rows_of_year quali_data (year e)))
  /\ NoDup (map round (events e))
  /\ (forall ev,
        In ev (map round (events e))
        <-> exists r, In r quali_data /\ Year r = year e /\ EventName r = ev)
  /\ (forall e',
        In e' (process_qualifying_data set_iter np_mean quali_data) ->
        year e' = year e ->
        map round (events e') = map round (events e)).
Proof.
  pose proof (entry_rounds set_iter np_mean quali_data) as R.
  intros H. rewrite (R e H). unfold season_events. repeat split.
  - apply NoDup_unique, String.eqb_eq.
  - intros Hin. apply (proj1 (In_unique _ String.eqb String.eqb_eq _ _)) in Hin.
    apply in_map_iff in Hin. destruct Hin as (r & <- & Hr).
    apply In_rows_of_year in Hr. exists r. tauto.
  - intros (r & Hr & Hy & <-).
    apply (proj2 (In_unique _ String.eqb String.eqb_eq _ _)).
    apply in_map. apply In_rows_of_year. tauto.
  - intros e' H' Hy. rewrite (R e' H'), Hy. reflexivity.
Qed.

Lemma events_in_first_encounter_order_witness :
  map round (events Sample.entry_A) = ["R1"; "R2"]
  /\ map round (events Sample.entry_C) = map round (events Sample.entry_A).
Proof.
  assert (HA : In Sample.entry_A
                 (process_qualifying_data Sample.insertion_order
                    Sample.mean_seq Sample.season_2022))
    by (vm_compute; tauto).
  assert (HC : In Sample.entry_C
                 (process_qualifying_data Sample.insertion_order
                    Sample.mean_seq Sample.season_2022))
    by (vm_compute; tauto).
  destruct (events_in_first_encounter_order Sample.insertion_order
              Sample.mean_seq Sample.season_2022 Sample.entry_A HA)
    as (E & _ & _ & S).
  split.
  - exact E.
  - apply (S Sample.entry_C HC). reflexivity.
Defined.

(** ** C5: repeated runs *)

Lemma Permutation_flat_map_pointwise {A B : Type} (f g : A -> list B)
    (l : list A) :
  (forall x, In x l -> Permutation (f x) (g x)) ->
  Permutation (flat_map f l) (flat_map g l).
Proof.
  induction l as [| x l IH]; simpl; intros H.
  - constructor.
  - apply Permutation_app.
    + apply H. left. reflexivity.
    + apply IH. intros y Hy. apply H. right. exact Hy.
Qed.

Lemma flat_map_pointwise {A B : Type} (f g : A -> list B) (l : list A) :
  (forall x, In x l -> f x = g x) -> flat_map f l = flat_map g l.
Proof.
  induction l as [| x l IH]; simpl; intros H.
  - reflexivity.
  - rewrite (H x) by (left; reflexivity). f_equal.
    apply IH. intros y Hy. apply H. right. exact Hy.
Qed.

(** C5, as the code has it.  The entries of a year are produced in the order
    in which Python iterates over [set(names)], which the input does not fix.
    Two runs on the same table produce the same entries with the same field
    values, in possibly different orders: the two outputs are permutations of
    each other whatever the two iteration orders are, and they are the same
    list when the two runs iterate over every season's drivers in the same
    order. *)
Theorem output_determined_up_to_set_order
    (set_iter1 set_iter2 : list string -> list string)
    (np_mean : list float -> float) (quali_data : list Row) :
  ((forall names, Permutation (set_iter1 names) names) ->
   (forall names, Permutation (set_iter2 names) names) ->
   Permutation
     (process_qualifying_data set_iter1 np_mean quali_data)
     (process_qualifying_data set_iter2 np_mean quali_data))
  /\ ((forall y,
         In y (map Year quali_data) ->
         set_iter1 (season_drivers quali_data y)
         = set_iter2 (season_drivers quali_data y)) ->
      process_qualifying_data set_iter1 np_mean quali_data
      = process_qualifying_data set_iter2 np_mean quali_data).
Proof.
  rewrite !process_qualifying_data_entries. split.
  - intros P1 P2. apply Permutation_map.
    apply Permutation_flat_map_pointwise. intros y _.
    unfold season_entries. apply Permutation_flat_map.
    transitivity (season_drivers quali_data y).
    + apply P1.
    + symmetry. apply P2.
  - intros E. f_equal. apply flat_map_pointwise. intros y Hy.
    rewrite E; [reflexivity |].
    apply (proj1 (In_unique _ Z.eqb Z.eqb_eq _ _)). exact Hy.
Qed.

Lemma output_determined_up_to_set_order_witness :
  Permutation
    (process_qualifying_data Sample.insertion_order Sample.mean_seq
       Sample.season_2022)
    (process_qualifying_data Sample.reverse_order Sample.mean_seq
       Sample.season_2022)
  /\ process_qualifying_data Sample.insertion_order Sample.mean_seq
       Sample.season_2022
     = process_qualifying_data (fun names => names) Sample.mean_seq
         Sample.season_2022.
Proof.
  split.
  - apply (proj1 (output_determined_up_to_set_order Sample.insertion_order
                    Sample.reverse_order Sample.mean_seq Sample.season_2022)).
    + intros names. apply Permutation_refl.
    + intros names. apply Permutation_sym, Permutation_rev.
  - apply (proj2 (output_determined_up_to_set_order Sample.insertion_order
                    (fun names => names) Sample.mean_seq Sample.season_2022)).
    intros y _. reflexivity.
Defined.

(** The claim as stated fails: on [Sample.season_2022] an interpreter that
    iterates over the set of names in insertion order and one that iterates
    in the reverse order produce the three entries in opposite orders. *)
Lemma output_order_follows_set_order :
  map driver
    (process_qualifying_data Sample.insertion_order Sample.mean_seq
       Sample.season_2022) = ["A"; "B"; "C"]
  /\ map driver
       (process_qualifying_data Sample.reverse_order Sample.mean_seq
          Sample.season_2022) = ["C"; "B"; "A"].
Proof. split; vm_compute; reflexivity. Qed.

(** ** Rows of an event *)

Lemma In_rows_of_event (year_data : list Row) (ev : string) (r : Row) :
  In r (rows_of_event year_data ev) <-> In r year_data /\ EventName r = ev.
Proof.
  unfold rows_of_event. rewrite filter_In, String.eqb_eq. tauto.
Qed.

Lemma first_row_In (d : string) (rows : list Row) (r : Row) :
  first_row d rows = Some r -> In r rows /\ BroadcastName r = d.
Proof.
  unfold first_row. intros H.
  assert (Hin : In r (filter (fun r => (BroadcastName r =? d)%string) rows)).
  { destruct (filter _ rows) as [| x l]; simpl in H; [discriminate |].
    inversion H. left. reflexivity. }
  apply filter_In in Hin. rewrite String.eqb_eq in Hin. exact Hin.
Qed.

Lemma filter_nil {A : Type} (f : A -> bool) (l : list A) :
  (forall x, In x l -> f x = false) -> filter f l = [].
Proof.
  induction l as [| x l IH]; simpl; intros H; [reflexivity |].
  rewrite (H x) by tauto. apply IH. intros y Hy. apply H. tauto.
Qed.

Lemma In_events_summary
    (set_iter : list string -> list string) (np_mean : list float -> float)
    (quali_data : list Row) (e : TimelineEntry) (s : EventSummary) :
  In e (process_qualifying_data set_iter np_mean quali_data) ->
  In s (events e) ->
  s = event_summary_of (rows_of_year quali_data (year e)) (driver e) (team e)
        (round s).
Proof.
  intros H Hs.
  destruct (entry_shape set_iter np_mean quali_data e H)
    as (_ & _ & _ & He & _).
  rewrite He in Hs. apply in_map_iff in Hs. destruct Hs as (ev & <- & _).
  rewrite event_summary_round. reflexivity.
Qed.

(** ** C3: the pole time *)

Lemma gap_to_pole_without_pole (year_data : list Row) (d t ev : string) :
  (forall r, In r (rows_of_event year_data ev) ->
             Py.eq_one (Position r) = false) ->
  gapToPole (event_summary_of year_data d t ev) = nan.
Proof.
  intros H. unfold event_summary_of.
  destruct (first_row d (rows_of_event year_data ev)) as [r |] eqn:F;
    [| reflexivity].
  apply first_row_In in F. destruct F as [Hin _].
  unfold summarize_present, pole_time_of. cbv zeta. rewrite (filter_nil _ _ H).
  cbn [fst create_event_summary gapToPole].
  unfold calculate_gap_to_pole, Py.notna, Py.isna.
  destruct (is_nan (Position r)) eqn:N; simpl.
  - reflexivity.
  - rewrite N, (H r Hin). destruct (get_best_time r); reflexivity.
Qed.

(** C3, as the code has it.  The pole time of an event is the [Q3Seconds]
    value of the first row with [Position == 1]; it is that competitor's
    representative best time exactly when that Q3 time is not null, and it is
    NaN when the competitor has no Q3 time, whatever the Q2 and Q1 times are.
    When no row of the event has [Position == 1] the pole time is NaN and the
    gap to pole of every driver at that event is NaN. *)
Theorem pole_time_spec
    (set_iter : list string -> list string) (np_mean : list float -> float)
    (quali_data : list Row) :
  (forall event_data pole,
     hd_error (filter (fun r => Py.eq_one (Position r)) event_data)
     = Some pole ->
     pole_time_of event_data = Q3Seconds pole
     /\ (is_nan (Q3Seconds pole) = false ->
         get_best_time pole = Some (pole_time_of event_data))
     /\ (is_nan (Q3Seconds pole) = true ->
         pole_time_of event_data = nan))
  /\ (forall event_data,
        (forall r, In r event_data -> Py.eq_one (Position r) = false) ->
        pole_time_of event_data = nan)
  /\ (forall e s,
        In e (process_qualifying_data set_iter np_mean quali_data) ->
        In s (events e) ->
        (forall r, In r quali_data -> Year r = year e ->
                   EventName r = round s ->
                   Py.eq_one (Position r) = false) ->
        gapToPole s = nan).
Proof.
  repeat split.
  - unfold pole_time_of.
    destruct (filter _ event_data); simpl in H; inversion H. reflexivity.
  - intros N. unfold pole_time_of, get_best_time, Py.notna, Py.isna.
    destruct (filter _ event_data); simpl in H; inversion H.
    rewrite N. reflexivity.
  - intros N. unfold pole_time_of.
    destruct (filter _ event_data); simpl in H; inversion H.
    apply is_nan_eq. exact N.
  - intros event_data H. unfold pole_time_of.
    rewrite (filter_nil _ _ H). reflexivity.
  - intros e s He Hs H.
    rewrite (In_events_summary set_iter np_mean quali_data e s He Hs).
    apply gap_to_pole_without_pole. intros r Hr.
    apply In_rows_of_event in Hr. destruct Hr as [Hr Hev].
    apply In_rows_of_year in Hr. destruct Hr as [Hr Hy].
    apply H; assumption.
Qed.

Lemma pole_time_spec_witness :
  (pole_time_of (rows_of_event Sample.season_2022 "R1") = 80%float
   /\ get_best_time (Sample.row "A" "T1" 1 "R1" 81 80.5 80)
      = Some (pole_time_of (rows_of_event Sample.season_2022 "R1")))
  /\ pole_time_of (rows_of_event Sample.season_2022 "R2") = nan
  /\ pole_time_of Sample.team_T2_R1 = nan
  /\ gapToPole Sample.summary_no_pole = nan.
Proof.
  destruct (pole_time_spec Sample.insertion_order Sample.mean_seq
              Sample.no_pole_2022) as (P & N & G).
  split; [| split; [| split]].
  - destruct (P (rows_of_event Sample.season_2022 "R1")
                (Sample.row "A" "T1" 1 "R1" 81 80.5 80) eq_refl)
      as (E & B & _).
    split; [exact E | apply B; reflexivity].
  - destruct (P (rows_of_event Sample.season_2022 "R2")
                (Sample.row "B" "T1" 1 "R2" 81.5 80.75 nan) eq_refl)
      as (_ & _ & M).
    apply M. reflexivity.
  - apply N. intros r [<- | []]. reflexivity.
  - apply (G Sample.entry_no_pole Sample.summary_no_pole).
    + vm_compute. tauto.
    + vm_compute. tauto.
    + intros r [<- | [<- | []]] _ _; reflexivity.
Defined.

(** The claim as stated fails: at R2 of [Sample.season_2022] the competitor
    with position 1 has a best time of 80.75 s (from Q2) and no Q3 time; the
    pole time is NaN, and the gap to pole of driver A (position 2, best time
    80.5 s) is NaN. *)
Lemma pole_time_is_not_best_time :
  hd_error
    (filter (fun r => Py.eq_one (Position r))
       (rows_of_event Sample.season_2022 "R2"))
  = Some (Sample.row "B" "T1" 1 "R2" 81.5 80.75 nan)
  /\ get_best_time (Sample.row "B" "T1" 1 "R2" 81.5 80.75 nan)
     = Some 80.75%float
  /\ pole_time_of (rows_of_event Sample.season_2022 "R2") = nan
  /\ map gapToPole (events Sample.entry_A) = [0%float; nan].
Proof. repeat split. Qed.

(** ** C10: the team of the teammate comparison *)

Lemma teammate_gap_not_member (team_data : list Row) (d : string) :
  ~ In d (map BroadcastName team_data) ->
  teammate_gap_of team_data d = nan.
Proof.
  intros H.
  assert (Hu : ~ In d (Py.unique String.eqb (map BroadcastName team_data)))
    by (intros X; apply H, (In_unique _ String.eqb String.eqb_eq), X).
  unfold teammate_gap_of, calculate_teammate_gaps.
  destruct (Py.unique String.eqb (map BroadcastName team_data))
    as [| a [| b [| c l]]]; try apply get_default_const.
  assert (Ea : (d =? a)%string = false)
    by (apply String.eqb_neq; intros ->; apply Hu; simpl; tauto).
  assert (Eb : (d =? b)%string = false)
    by (apply String.eqb_neq; intros ->; apply Hu; simpl; tauto).
  destruct (filter (fun r => (BroadcastName r =? a)%string) team_data);
    [apply get_default_const |].
  destruct (filter (fun r => (BroadcastName r =? b)%string) team_data);
    [apply get_default_const |].
  destruct (get_best_time _); [| apply get_default_const].
  destruct (get_best_time _); [| apply get_default_const].
  unfold Py.get_default.
  rewrite !(get_set _ String.eqb String.eqb_eq), Ea, Eb. simpl.
  rewrite Ea, Eb. reflexivity.
Qed.

Lemma teammate_gap_of_summary (year_data : list Row) (d t ev : string) :
  teammateGap (event_summary_of year_data d t ev)
  = match first_row d (rows_of_event year_data ev) with
    | None => nan
    | Some _ =>
        teammate_gap_of
          (filter (fun r => (TeamName r =? t)%string)
             (rows_of_event year_data ev))
          d
    end.
Proof.
  unfold event_summary_of.
  destruct (first_row d (rows_of_event year_data ev)); reflexivity.
Qed.

(** C10.  The entry of a driver carries the driver's first-seen team of the
    season, and the teammate gap of each of its events is computed over the
    rows of that event whose [TeamName] is this first-seen team.  So at an
    event where the driver's rows carry another team, the teammate gap is NaN
    and [hasTeammateData] is false, whatever the times of the driver and of
    the drivers of the new team are. *)
Theorem teammate_gap_uses_first_seen_team
    (set_iter : list string -> list string) (np_mean : list float -> float)
    (quali_data : list Row) (e : TimelineEntry) :
  In e (process_qualifying_data set_iter np_mean quali_data) ->
  first_seen_team quali_data (year e) (driver e) = Some (team e)
  /\ (forall s,
        In s (events e) ->
        let event_data :=
          rows_of_event (rows_of_year quali_data (year e)) (round s) in
        teammateGap s
        = match first_row (driver e) event_data with
          | None => nan
          | Some _ =>
              teammate_gap_of
                (filter (fun r => (TeamName r =? team e)%string) event_data)
                (driver e)
          end)
  /\ (forall s,
        In s (events e) ->
        (forall r, In r quali_data -> Year r = year e ->
                   EventName r = round s -> BroadcastName r = driver e ->
                   TeamName r <> team e) ->
        teammateGap s = nan /\ hasTeammateData s = false).
Proof.
  intros H.
  destruct (entry_shape set_iter np_mean quali_data e H)
    as (_ & _ & Ht & _).
  assert (G : forall s, In s (events e) ->
              teammateGap s
              = match
                  first_row (driver e)
                    (rows_of_event (rows_of_year quali_data (year e))
                       (round s))
                with
                | None => nan
                | Some _ =>
                    teammate_gap_of
                      (filter (fun r => (TeamName r =? team e)%string)
                         (rows_of_event (rows_of_year quali_data (year e))
                            (round s)))
                      (driver e)
                end).
  { intros s Hs.
    rewrite (In_events_summary set_iter np_mean quali_data e s H Hs) at 1.
    apply teammate_gap_of_summary. }
  split; [exact Ht | split; [exact G |]].
  intros s Hs Hteam.
  assert (N : teammateGap s = nan).
  { rewrite (G s Hs).
    destruct (first_row _ _) as [own |]; [| reflexivity].
    apply teammate_gap_not_member. intros Hin.
    apply in_map_iff in Hin. destruct Hin as (r & Hn & Hr).
    apply filter_In in Hr. destruct Hr as [Hr Hteq].
    apply String.eqb_eq in Hteq.
    apply In_rows_of_event in Hr. destruct Hr as [Hr Hev].
    apply In_rows_of_year in Hr. destruct Hr as [Hr Hy].
    exact (Hteam r Hr Hy Hev Hn Hteq). }
  split; [exact N |].
  rewrite (In_events_summary set_iter np_mean quali_data e s H Hs).
  rewrite (In_events_summary set_iter np_mean quali_data e s H Hs) in N.
  revert N. unfold event_summary_of.
  destruct (first_row _ _); simpl; [| reflexivity].
  intros ->. reflexivity.
Qed.

Lemma teammate_gap_uses_first_seen_team_witness :
  first_seen_team Sample.transfer_2022 2022 "A" = Some "T1"
  /\ get_best_time (Sample.row "A" "T2" 1 "R2" 81 80.5 80.5)
     = Some 80.5%float
  /\ get_best_time (Sample.row "C" "T2" 2 "R2" 81.5 80.75 80.75)
     = Some 80.75%float
  /\ teammateGap Sample.summary_transfer_A_R2 = nan
  /\ hasTeammateData Sample.summary_transfer_A_R2 = false.
Proof.
  assert (H : In Sample.entry_transfer_A
                (process_qualifying_data Sample.insertion_order
                   Sample.mean_seq Sample.transfer_2022))
    by (vm_compute; tauto).
  destruct (teammate_gap_uses_first_seen_team Sample.insertion_order
              Sample.mean_seq Sample.transfer_2022 Sample.entry_transfer_A H)
    as (T & _ & G).
  split; [exact T | split; [reflexivity | split; [reflexivity |]]].
  apply (G Sample.summary_transfer_A_R2).
  - vm_compute. tauto.
  - intros r [<- | [<- | [<- | [<- | [<- | [<- | []]]]]]] _ Hev Hn;
      simpl in Hev, Hn; try discriminate Hev; try discriminate Hn.
    simpl. discriminate.
Defined.

(** ** C4: time conversion *)

Lemma to_timedelta_ok (column : list DurationField) :
  existsb is_malformed column = false ->
  to_timedelta column = Ok (map timedelta_of column).
Proof.
  induction column as [| f column IH]; simpl; intros H.
  - reflexivity.
  - apply orb_false_iff in H. destruct H as [Hf Hc].
    destruct f; simpl in Hf; try discriminate;
      rewrite (IH Hc); reflexivity.
Qed.

Lemma to_timedelta_raise (column : list DurationField) :
  existsb is_malformed column = true ->
  to_timedelta column = Raise ValueError.
Proof.
  induction column as [| f column IH]; simpl; intros H.
  - discriminate.
  - destruct f; simpl in H; try reflexivity; rewrite (IH H); reflexivity.
Qed.

Lemma existsb_map {A B : Type} (f : B -> bool) (g : A -> B) (l : list A) :
  existsb f (map g l) = existsb (fun x => f (g x)) l.
Proof.
  induction l as [| x l IH]; simpl; [reflexivity | rewrite IH; reflexivity].
Qed.

Lemma existsb_orb {A : Type} (f g : A -> bool) (l : list A) :
  existsb (fun x => f x || g x) l = existsb f l || existsb g l.
Proof.
  induction l as [| x l IH]; simpl; [reflexivity |].
  rewrite IH. destruct (f x), (g x), (existsb f l), (existsb g l); reflexivity.
Qed.

Lemma combine_map {A B C : Type} (f : A -> B) (g : A -> C) (l : list A) :
  combine (map f l) (map g l) = map (fun x => (f x, g x)) l.
Proof.
  induction l as [| x l IH]; simpl; [reflexivity | rewrite IH; reflexivity].
Qed.

Lemma combine_self_map {A B : Type} (g : A -> B) (l : list A) :
  combine l (map g l) = map (fun x => (x, g x)) l.
Proof.
  induction l as [| x l IH]; simpl; [reflexivity | rewrite IH; reflexivity].
Qed.

Lemma row_malformed_columns (df : list RawRow) :
  existsb row_malformed df
  = existsb is_malformed (map Q1 df)
    || existsb is_malformed (map Q2 df)
    || existsb is_malformed (map Q3 df).
Proof.
  rewrite !existsb_map. unfold row_malformed.
  rewrite !existsb_orb. reflexivity.
Qed.




(** ** C9: a single-team season *)

Lemma team_at_In (year_data : list Row) (d ev t : string) :
  team_at year_data d ev = Some t ->
  exists r, In r year_data /\ BroadcastName r = d /\ TeamName r = t.
Proof.
  unfold team_at. intros H.
  destruct (first_row d (rows_of_event year_data ev)) as [r |] eqn:F.
  - unfold first_row in F.
    destruct (filter _ (rows_of_event year_data ev)) as [| r' l] eqn:E;
      [discriminate |].
    simpl in F. inversion F. subst r'. inversion H. subst t.
    assert (Hin : In r (filter (fun r => (BroadcastName r =? d)%string)
                          (rows_of_event year_data ev)))
      by (rewrite E; left; reflexivity).
    apply filter_In in Hin. destruct Hin as [Hin Hn].
    apply String.eqb_eq in Hn. apply In_rows_of_event in Hin.
    exists r. tauto.
  - unfold first_row in F.
    destruct (filter _ (rows_of_event year_data ev)); [discriminate H |].
    discriminate F.
Qed.

Lemma affiliation_single_team
    (year_data : list Row) (d t : string) (evs : list string) :
  (forall r, In r year_data -> BroadcastName r = d -> TeamName r = t) ->
  affiliation year_data d t evs = map (fun ev => (ev, t)) evs.
Proof.
  intros H. induction evs as [| ev evs IH]; simpl; [reflexivity |].
  destruct (team_at year_data d ev) as [t' |] eqn:E.
  - apply team_at_In in E. destruct E as (r & Hr & Hn & Ht).
    rewrite <- Ht, (H r Hr Hn), IH. reflexivity.
  - rewrite IH. reflexivity.
Qed.

Lemma contiguous_runs_cons (ev t : string) (l : list (string * string)) :
  contiguous_runs ((ev, t) :: l)
  = match contiguous_runs l with
    | (t', es) :: runs =>
        if (t =? t')%string then (t, ev :: es) :: runs
        else (t, [ev]) :: (t', es) :: runs
    | [] => [(t, [ev])]
    end.
Proof. reflexivity. Qed.

Lemma contiguous_runs_single_team (t : string) (evs : list string) :
  evs <> [] ->
  contiguous_runs (map (fun ev => (ev, t)) evs) = [(t, evs)].
Proof.
  induction evs as [| ev evs IH]; intros H; [congruence |].
  destruct evs as [| ev' evs'].
  - reflexivity.
  - change (map (fun ev => (ev, t)) (ev :: ev' :: evs'))
      with ((ev, t) :: map (fun ev => (ev, t)) (ev' :: evs')).
    rewrite contiguous_runs_cons, IH by discriminate.
    rewrite String.eqb_refl. reflexivity.
Qed.

(** C9.  Against the Stint Segmenter as the specification describes it (its
    source is not in the repository): when every record of a driver in a
    season carries the same team, the segmentation yields exactly one stint;
    it spans the season's events in order and has the year, driver, team,
    events and aggregates of the unsegmented entry. *)
Theorem single_team_season_one_stint
    (set_iter : list string -> list string) (np_mean : list float -> float)
    (quali_data : list Row) (e : TimelineEntry) (t : string) :
  In e (process_qualifying_data set_iter np_mean quali_data) ->
  (forall r, In r quali_data -> Year r = year e ->
             BroadcastName r = driver e -> TeamName r = t) ->
  exists s,
    segment_stints np_mean quali_data (year e) (driver e) = [s]
    /\ map round (events s) = season_events quali_data (year e)
    /\ year s = year e
    /\ driver s = driver e
    /\ team s = team e
    /\ team s = t
    /\ events s = events e
    /\ avgQualifyingPosition s = avgQualifyingPosition e
    /\ avgGapToPole s = avgGapToPole e
    /\ avgTeammateGap s = avgTeammateGap e
    /\ dataCompleteness s = dataCompleteness e
    /\ option_map start_event (teamStintInfo s)
       = Some (hd "" (season_events quali_data (year e)))
    /\ option_map end_event (teamStintInfo s)
       = Some (last (season_events quali_data (year e)) "").
Proof.
  intros H Hteam.
  pose proof (entry_rounds set_iter np_mean quali_data e H) as Hrounds.
  apply In_process_qualifying_data in H.
  destruct H as (y & d & t0 & Hy & Hd & Ht & ->).
  set (a := fold_left _ _ _) in *.
  destruct (event_loop_fields (rows_of_year quali_data y) d t0
              (season_events quali_data y) (create_driver_entry y d t0))
    as (Ly & Ld & Lt & _).
  fold a in Ly, Ld, Lt. simpl in Ly, Ld, Lt.
  assert (Ey : year (finalize np_mean a) = y) by exact Ly.
  assert (Ed : driver (finalize np_mean a) = d) by exact Ld.
  assert (Et : team (finalize np_mean a) = t0) by exact Lt.
  rewrite Ey, Ed in *. rewrite Et.
  assert (T : t0 = t).
  { unfold first_seen_team in Ht.
    destruct (first_row d (rows_of_year quali_data y)) as [r |] eqn:F;
      [| discriminate].
    apply first_row_In in F. destruct F as [Hr Hn].
    apply In_rows_of_year in Hr. destruct Hr as [Hr Hyr].
    simpl in Ht. inversion Ht. apply Hteam; assumption. }
  assert (NE : season_events quali_data y <> []).
  { unfold first_seen_team, first_row in Ht. unfold season_events.
    destruct (rows_of_year quali_data y) as [| r rs]; [discriminate |].
    unfold Py.unique. simpl. discriminate. }
  unfold segment_stints. rewrite driver_team_mapping_spec, Ht.
  fold (season_events quali_data y).
  rewrite affiliation_single_team.
  2:{ intros r Hr Hn. apply In_rows_of_year in Hr. destruct Hr as [Hr Hyr].
      rewrite T. apply Hteam; assumption. }
  rewrite (contiguous_runs_single_team t0 _ NE). cbn [map].
  eexists. split; [reflexivity |].
  unfold stint_entry, process_driver. cbn [fst snd]. fold a.
  cbn [year driver team events avgQualifyingPosition avgGapToPole
       avgTeammateGap dataCompleteness teamStintInfo option_map start_event
       end_event].
  rewrite Ey, Ed, Et.
  repeat split; try assumption.
Qed.

Lemma single_team_season_one_stint_witness :
  exists s,
    segment_stints Sample.mean_seq Sample.season_2022 2022 "A" = [s]
    /\ map round (events s) = ["R1"; "R2"]
    /\ team s = "T1"
    /\ events s = events Sample.entry_A
    /\ avgGapToPole s = avgGapToPole Sample.entry_A
    /\ dataCompleteness s = dataCompleteness Sample.entry_A.
Proof.
  assert (H : In Sample.entry_A
                (process_qualifying_data Sample.insertion_order
                   Sample.mean_seq Sample.season_2022))
    by (vm_compute; tauto).
  destruct (single_team_season_one_stint Sample.insertion_order
              Sample.mean_seq Sample.season_2022 Sample.entry_A "T1" H)
    as (s & S & R & _ & _ & _ & T & E & _ & G & _ & C & _).
  - intros r [<- | [<- | [<- | [<- | [<- | []]]]]] _ Hn;
      simpl in Hn; try discriminate Hn; reflexivity.
  - exists s. repeat split; assumption.
Defined.

(** * Further properties of the code *)

(** ** Best time *)

(** X1.  [get_best_time] returns the Q3 time when there is one, else the Q2
    time, else the Q1 time; it returns [None] exactly when the three are NaN,
    and it never returns NaN. *)
Theorem get_best_time_priority (r : Row) :
  (get_best_time r = None
   <-> is_nan (Q3Seconds r) = true /\ is_nan (Q2Seconds r) = true
       /\ is_nan (Q1Seconds r) = true)
  /\ (forall t, get_best_time r = Some t -> is_nan t = false)
  /\ (is_nan (Q3Seconds r) = false -> get_best_time r = Some (Q3Seconds r))
  /\ (is_nan (Q3Seconds r) = true -> is_nan (Q2Seconds r) = false ->
      get_best_time r = Some (Q2Seconds r))
  /\ (is_nan (Q3Seconds r) = true -> is_nan (Q2Seconds r) = true ->
      is_nan (Q1Seconds r) = false ->
      get_best_time r = Some (Q1Seconds r)).
Proof.
  split; [| split; [apply get_best_time_not_nan |]];
    unfold get_best_time, Py.notna, Py.isna;
    destruct (is_nan (Q3Seconds r)), (is_nan (Q2Seconds r)),
      (is_nan (Q1Seconds r)); simpl;
    repeat split; intros; try congruence; try tauto;
    repeat match goal with H : _ /\ _ |- _ => destruct H end;
    congruence.
Qed.

Lemma get_best_time_priority_witness :
  get_best_time (Sample.row "C" "T2" 3 "R1" nan nan nan) = None
  /\ get_best_time (Sample.row "A" "T1" 1 "R1" 81 80.5 80) = Some 80%float
  /\ get_best_time (Sample.row "B" "T1" 1 "R2" 81.5 80.75 nan)
     = Some 80.75%float
  /\ get_best_time (Sample.row "C" "T2" 3 "R1" 82 nan nan) = Some 82%float.
Proof.
  split; [| split; [| split]].
  - apply (proj1 (get_best_time_priority
                    (Sample.row "C" "T2" 3 "R1" nan nan nan))).
    repeat split.
  - apply (proj1 (proj2 (proj2 (get_best_time_priority
                                  (Sample.row "A" "T1" 1 "R1" 81 80.5 80))))).
    reflexivity.
  - apply (proj1 (proj2 (proj2 (proj2
             (get_best_time_priority
                (Sample.row "B" "T1" 1 "R2" 81.5 80.75 nan))))));
      reflexivity.
  - apply (proj2 (proj2 (proj2 (proj2
             (get_best_time_priority
                (Sample.row "C" "T2" 3 "R1" 82 nan nan))))));
      reflexivity.
Defined.

(** ** The summaries of the timeline *)

Lemma summary_of_present (year_data : list Row) (d t ev : string) (r : Row) :
  first_row d (rows_of_event year_data ev) = Some r ->
  event_summary_of year_data d t ev
  = create_event_summary ev (Position r)
      (calculate_gap_to_pole (Some (Position r)) (get_best_time r)
         (Some (pole_time_of (rows_of_event year_data ev))))
      (teammate_gap_of
         (filter (fun r => (TeamName r =? t)%string)
            (rows_of_event year_data ev))
         d).
Proof.
  intros F. unfold event_summary_of. rewrite F.
  unfold summarize_present. cbv zeta. cbn [fst].
  assert (P : (if Py.notna (Some (Position r)) then Position r else nan)
              = Position r).
  { unfold Py.notna, Py.isna. destruct (is_nan (Position r)) eqn:N; simpl.
    - symmetry. apply is_nan_eq. exact N.
    - reflexivity. }
  rewrite P. reflexivity.
Qed.

Lemma summary_of_absent (year_data : list Row) (d t ev : string) :
  first_row d (rows_of_event year_data ev) = None ->
  event_summary_of year_data d t ev = create_event_summary ev nan nan nan.
Proof. intros F. unfold event_summary_of. rewrite F. reflexivity. Qed.

Lemma first_row_None (d : string) (rows : list Row) :
  first_row d rows = None <->
  (forall r, In r rows -> BroadcastName r <> d).
Proof.
  unfold first_row. split.
  - intros H r Hr Hn.
    assert (Hin : In r (filter (fun r => (BroadcastName r =? d)%string) rows))
      by (apply filter_In; split; [exact Hr | now apply String.eqb_eq]).
    destruct (filter _ rows); [contradiction | discriminate].
  - intros H. rewrite filter_nil; [reflexivity |].
    intros r Hr. apply String.eqb_neq. apply H. exact Hr.
Qed.

(** X2.  In the output, an event at which the driver's position is 1 has a
    gap to pole of exactly [0.0], whatever the times of the table are. *)
Theorem pole_sitter_gap_is_zero
    (set_iter : list string -> list string) (np_mean : list float -> float)
    (quali_data : list Row) (e : TimelineEntry) (s : EventSummary) :
  In e (process_qualifying_data set_iter np_mean quali_data) ->
  In s (events e) ->
  Py.eq_one (position s) = true ->
  gapToPole s = 0%float.
Proof.
  intros He Hs.
  rewrite (In_events_summary set_iter np_mean quali_data e s He Hs).
  destruct (first_row (driver e)
              (rows_of_event (rows_of_year quali_data (year e)) (round s)))
    as [r |] eqn:F.
  - rewrite (summary_of_present _ _ _ _ r F). simpl. intros H1.
    rewrite (eq_one_not_nan _ H1), H1. reflexivity.
  - rewrite (summary_of_absent _ _ _ _ F). simpl. discriminate.
Qed.

Lemma pole_sitter_gap_is_zero_witness :
  position Cases.summary_A_R1 = 1%float
  /\ gapToPole Cases.summary_A_R1 = 0%float.
Proof.
  split; [reflexivity |].
  apply (pole_sitter_gap_is_zero Sample.insertion_order Sample.mean_seq
           Sample.season_2022 Sample.entry_A Cases.summary_A_R1).
  - vm_compute. tauto.
  - vm_compute. tauto.
  - reflexivity.
Defined.

Lemma has_teammate_data_iff_gap_is_number
    (set_iter : list string -> list string) (np_mean : list float -> float)
    (quali_data : list Row) (e : TimelineEntry) (s : EventSummary) :
  In e (process_qualifying_data set_iter np_mean quali_data) ->
  In s (events e) ->
  hasTeammateData s = negb (is_nan (teammateGap s)).
Proof.
  intros He Hs.
  rewrite (In_events_summary set_iter np_mean quali_data e s He Hs).
  unfold event_summary_of.
  destruct (first_row _ _); reflexivity.
Qed.

(** X3.  In the output, [hasTeammateData] is true exactly when the teammate
    gap is a number.  At an event where the driver has no row the summary
    carries only the round: position, gap to pole and teammate gap are NaN
    and [hasTeammateData] is false.  Where the driver has a row, the position
    is the one of the driver's first row of the event. *)
Theorem summary_of_missing_and_present_driver
    (set_iter : list string -> list string) (np_mean : list float -> float)
    (quali_data : list Row) (e : TimelineEntry) (s : EventSummary) :
  In e (process_qualifying_data set_iter np_mean quali_data) ->
  In s (events e) ->
  hasTeammateData s = negb (is_nan (teammateGap s))
  /\ ((forall r, In r quali_data -> Year r = year e ->
                 EventName r = round s -> BroadcastName r <> driver e) ->
      position s = nan /\ gapToPole s = nan /\ teammateGap s = nan
      /\ hasTeammateData s = false)
  /\ (forall r,
        first_row (driver e)
          (rows_of_event (rows_of_year quali_data (year e)) (round s))
        = Some r ->
        position s = Position r).
Proof.
  intros He Hs.
  rewrite (In_events_summary set_iter np_mean quali_data e s He Hs).
  rewrite event_summary_round.
  destruct (first_row (driver e)
              (rows_of_event (rows_of_year quali_data (year e)) (round s)))
    as [r |] eqn:F.
  - rewrite (summary_of_present _ _ _ _ r F). simpl.
    split; [reflexivity | split].
    + intros H. exfalso. apply first_row_In in F. destruct F as [Hr Hn].
      apply In_rows_of_event in Hr. destruct Hr as [Hr Hev].
      apply In_rows_of_year in Hr. destruct Hr as [Hr Hy].
      exact (H r Hr Hy Hev Hn).
    + intros r' E. inversion E. reflexivity.
  - rewrite (summary_of_absent _ _ _ _ F). simpl.
    split; [reflexivity | split].
    + intros _. repeat split.
    + discriminate.
Qed.

Lemma summary_of_missing_and_present_driver_witness :
  (position Cases.summary_C_R2 = nan
   /\ gapToPole Cases.summary_C_R2 = nan
   /\ teammateGap Cases.summary_C_R2 = nan
   /\ hasTeammateData Cases.summary_C_R2 = false)
  /\ position Cases.summary_B_R1 = 2%float.
Proof.
  split.
  - apply (proj1 (proj2 (summary_of_missing_and_present_driver
                           Sample.insertion_order Sample.mean_seq
                           Sample.season_2022 Sample.entry_C
                           Cases.summary_C_R2
                           ltac:(vm_compute; tauto)
                           ltac:(vm_compute; tauto)))).
    intros r [<- | [<- | [<- | [<- | [<- | []]]]]] _ Hev;
      simpl in Hev; try discriminate Hev; simpl; discriminate.
  - apply (proj2 (proj2 (summary_of_missing_and_present_driver
                           Sample.insertion_order Sample.mean_seq
                           Sample.season_2022 Cases.entry_B
                           Cases.summary_B_R1
                           ltac:(vm_compute; tauto)
                           ltac:(vm_compute; tauto)))
             (Sample.row "B" "T1" 2 "R1" 81.5 80.75 80.25)).
    reflexivity.
Defined.

Lemma pole_time_of_pole_row (event_data : list Row) :
  pole_time_of event_data
  = match pole_row event_data with
    | Some pole => Q3Seconds pole
    | None => nan
    end.
Proof.
  unfold pole_time_of, pole_row.
  destruct (filter _ event_data); reflexivity.
Qed.

(** X4.  In the output, for a driver whose first row of the event has a
    position that is a number other than 1: the gap to pole is the driver's
    best time minus the Q3 time of the first row with position 1, when both
    exist; it is NaN when the driver has no time at all, and NaN when the row
    with position 1 has no Q3 time. *)
Theorem gap_to_pole_in_timeline
    (set_iter : list string -> list string) (np_mean : list float -> float)
    (quali_data : list Row) (e : TimelineEntry) (s : EventSummary)
    (r : Row) :
  In e (process_qualifying_data set_iter np_mean quali_data) ->
  In s (events e) ->
  first_row (driver e)
    (rows_of_event (rows_of_year quali_data (year e)) (round s)) = Some r ->
  is_nan (Position r) = false ->
  Py.eq_one (Position r) = false ->
  (forall pole b,
     pole_row (rows_of_event (rows_of_year quali_data (year e)) (round s))
     = Some pole ->
     is_nan (Q3Seconds pole) = false ->
     get_best_time r = Some b ->
     gapToPole s = (b - Q3Seconds pole)%float)
  /\ (get_best_time r = None -> gapToPole s = nan)
  /\ (forall pole,
        pole_row (rows_of_event (rows_of_year quali_data (year e)) (round s))
        = Some pole ->
        is_nan (Q3Seconds pole) = true ->
        gapToPole s = nan).
Proof.
  intros He Hs F N P1.
  rewrite (In_events_summary set_iter np_mean quali_data e s He Hs).
  rewrite (summary_of_present _ _ _ _ r F). simpl.
  rewrite N, P1, pole_time_of_pole_row.
  split; [| split].
  - intros pole b -> Q ->. rewrite Q. reflexivity.
  - intros ->. reflexivity.
  - intros pole -> Q. rewrite Q. destruct (get_best_time r); reflexivity.
Qed.

Lemma gap_to_pole_in_timeline_witness :
  gapToPole Cases.summary_B_R1 = (80.25 - 80)%float.
Proof.
  apply (proj1 (gap_to_pole_in_timeline Sample.insertion_order
                  Sample.mean_seq Sample.season_2022 Cases.entry_B
                  Cases.summary_B_R1
                  (Sample.row "B" "T1" 2 "R1" 81.5 80.75 80.25)
                  ltac:(vm_compute; tauto) ltac:(vm_compute; tauto)
                  eq_refl eq_refl eq_refl)
           (Sample.row "A" "T1" 1 "R1" 81 80.5 80) 80.25%float);
    reflexivity.
Defined.

(** ** One entry per driver and season *)

Lemma first_seen_team_Some (quali_data : list Row) (y : Z) (d : string) :
  In d (season_drivers quali_data y) ->
  exists t, first_seen_team quali_data y d = Some t.
Proof.
  unfold season_drivers, first_seen_team. intros H.
  apply (proj1 (In_unique _ String.eqb String.eqb_eq _ _)) in H.
  apply in_map_iff in H. destruct H as (r & Hn & Hr).
  destruct (first_row d (rows_of_year quali_data y)) as [r' |] eqn:F.
  - exists (TeamName r'). reflexivity.
  - exfalso. exact (proj1 (first_row_None _ _) F r Hr Hn).
Qed.

Lemma first_seen_team_drivers (quali_data : list Row) (y : Z) (d t : string) :
  first_seen_team quali_data y d = Some t ->
  In d (season_drivers quali_data y).
Proof.
  unfold season_drivers, first_seen_team. intros H.
  destruct (first_row d (rows_of_year quali_data y)) as [r |] eqn:F;
    [| discriminate].
  apply first_row_In in F. destruct F as [Hr Hn].
  apply (proj2 (In_unique _ String.eqb String.eqb_eq _ _)).
  rewrite <- Hn. apply in_map. exact Hr.
Qed.

Lemma season_entries_keys
    (quali_data : list Row) (y : Z) (drivers : list string) :
  (forall d, In d drivers -> In d (season_drivers quali_data y)) ->
  map (fun a => (Acc.year a, Acc.driver a))
    (season_entries quali_data y drivers)
  = map (pair y) drivers.
Proof.
  unfold season_entries.
  induction drivers as [| d ds IH]; intros H; [reflexivity |].
  cbn [flat_map map]. rewrite map_app, IH by (intros; apply H; now right).
  rewrite driver_team_mapping_spec.
  destruct (first_seen_team_Some quali_data y d (H d (or_introl eq_refl)))
    as [t Ht].
  rewrite Ht. cbn [map app].
  destruct (event_loop_fields (rows_of_year quali_data y) d t
              (season_events quali_data y) (create_driver_entry y d t))
    as (Ly & Ld & _).
  simpl in Ly, Ld. rewrite Ly, Ld. reflexivity.
Qed.

Lemma NoDup_map_pair {A B : Type} (x : A) (l : list B) :
  NoDup l -> NoDup (map (pair x) l).
Proof.
  induction 1 as [| b l Hb Hl IH]; simpl; constructor; [| exact IH].
  intros H. apply in_map_iff in H. destruct H as (b' & E & Hb').
  inversion E. subst b'. contradiction.
Qed.

Lemma NoDup_tagged {A B : Type} (f : A -> list B) (l : list A) :
  NoDup l -> (forall x, NoDup (f x)) ->
  NoDup (flat_map (fun x => map (pair x) (f x)) l).
Proof.
  intros Hl Hf. induction Hl as [| x l Hx Hl IH]; simpl.
  - constructor.
  - apply NoDup_app.
    + apply NoDup_map_pair, Hf.
    + exact IH.
    + intros [x' b] H1 H2. apply in_map_iff in H1.
      destruct H1 as (b' & E & _). inversion E. subst x' b'.
      apply in_flat_map in H2. destruct H2 as (x'' & Hx'' & H2).
      apply in_map_iff in H2. destruct H2 as (b'' & E' & _).
      inversion E'. subst x''. contradiction.
Qed.

Lemma output_keys
    (set_iter : list string -> list string) (np_mean : list float -> float)
    (quali_data : list Row) :
  (forall names, Permutation (set_iter names) names) ->
  map (fun e => (year e, driver e))
    (process_qualifying_data set_iter np_mean quali_data)
  = flat_map
      (fun y => map (pair y) (set_iter (season_drivers quali_data y)))
      (Py.unique Z.eqb (map Year quali_data)).
Proof.
  intros P. rewrite process_qualifying_data_entries, map_map.
  change (fun x : Acc.t =>
            (year (finalize np_mean x), driver (finalize np_mean x)))
    with (fun a : Acc.t => (Acc.year a, Acc.driver a)).
  induction (Py.unique Z.eqb (map Year quali_data)) as [| y ys IH];
    [reflexivity |].
  cbn [flat_map]. rewrite map_app, IH, season_entries_keys; [reflexivity |].
  intros d Hd. apply (Permutation_in _ (P _)). exact Hd.
Qed.



(** ** The driver-to-team mapping *)

(** X6.  [driver_team_mapping] maps (year, driver) to the team of the first
    row of the table that carries this year and driver, later rows never
    overwrite it; a key is missing exactly when no row carries it. *)
Theorem driver_team_mapping_first_row (quali_data : list Row) :
  (forall before r after,
     quali_data = before ++ r :: after ->
     (forall r', In r' before ->
                 ~ (Year r' = Year r /\ BroadcastName r' = BroadcastName r)) ->
     Py.get key_eqb (build_driver_team_mapping quali_data)
       (Year r, BroadcastName r)
     = Some (TeamName r))
  /\ (forall y d,
        Py.get key_eqb (build_driver_team_mapping quali_data) (y, d) = None
        <-> (forall r, In r quali_data ->
                       ~ (Year r = y /\ BroadcastName r = d))).
Proof.
  split.
  - intros before r after -> H. rewrite driver_team_mapping_spec.
    unfold first_seen_team, first_row, rows_of_year.
    rewrite !filter_app.
    rewrite (filter_nil (fun r0 => (BroadcastName r0 =? BroadcastName r)%string)
               (filter (fun r0 => (Year r0 =? Year r)%Z) before)).
    + cbn [filter app]. rewrite Z.eqb_refl. cbn [filter].
      rewrite String.eqb_refl. reflexivity.
    + intros r' Hr'. apply filter_In in Hr'. destruct Hr' as [Hin Hy].
      apply Z.eqb_eq in Hy. apply String.eqb_neq. intros Hn.
      exact (H r' Hin (conj Hy Hn)).
  - intros y d. rewrite driver_team_mapping_spec. unfold first_seen_team.
    split.
    + intros H r Hr [Hy Hn].
      destruct (first_row d (rows_of_year quali_data y)) eqn:F;
        [discriminate |].
      apply (proj1 (first_row_None _ _) F r); [| exact Hn].
      apply In_rows_of_year. tauto.
    + intros H.
      destruct (first_row d (rows_of_year quali_data y)) as [r |] eqn:F;
        [| reflexivity].
      apply first_row_In in F. destruct F as [Hr Hn].
      apply In_rows_of_year in Hr. exfalso. apply (H r); tauto.
Qed.

Lemma driver_team_mapping_first_row_witness :
  Py.get key_eqb (build_driver_team_mapping Sample.transfer_2022)
    (2022%Z, "A") = Some "T1"
  /\ Py.get key_eqb (build_driver_team_mapping Sample.transfer_2022)
       (2022%Z, "C") = Some "T2".
Proof.
  split.
  - apply (proj1 (driver_team_mapping_first_row Sample.transfer_2022)
             [] (Sample.row "A" "T1" 1 "R1" 81 80.5 80)
             (tl Sample.transfer_2022) eq_refl).
    intros r' [].
  - apply (proj1 (driver_team_mapping_first_row Sample.transfer_2022)
             [ Sample.row "A" "T1" 1 "R1" 81 80.5 80;
               Sample.row "B" "T1" 2 "R1" 81.5 80.75 80.25 ]
             (Sample.row "C" "T2" 3 "R1" 82 81 nan)
             (tl (tl (tl Sample.transfer_2022))) eq_refl).
    intros r' [<- | [<- | []]] [_ Hn]; discriminate Hn.
Defined.

(** ** Required columns *)

Lemma missing_columns_In (columns : list string) (col : string) :
  In col (missing_columns columns)
  <-> In col required_columns /\ ~ In col columns.
Proof.
  unfold missing_columns. rewrite filter_In, negb_true_iff.
  rewrite (mem_false _ String.eqb String.eqb_eq). tauto.
Qed.

Lemma In_assign_column (columns : list string) (col c : string) :
  In c (assign_column columns col) <-> In c columns \/ c = col.
Proof.
  unfold assign_column.
  destruct (Py.mem String.eqb col columns) eqn:M.
  - apply (mem_In _ String.eqb String.eqb_eq) in M. split; [tauto |].
    intros [H | ->]; assumption.
  - rewrite in_app_iff. simpl. split; intros [H | H]; auto.
    + destruct H as [H | []]. auto.
Qed.

Lemma check_required_columns_Ok (columns : list string) :
  check_required_columns columns = Ok tt
  <-> (forall col, In col required_columns -> In col columns).
Proof.
  unfold check_required_columns. split.
  - intros H col Hc.
    destruct (Py.mem String.eqb col columns) eqn:M.
    + apply (mem_In _ String.eqb String.eqb_eq) in M. exact M.
    + apply (mem_false _ String.eqb String.eqb_eq) in M.
      assert (Hm : In col (missing_columns columns))
        by (apply missing_columns_In; tauto).
      destruct (missing_columns columns); [contradiction | discriminate].
  - intros H. destruct (missing_columns columns) as [| c l] eqn:E;
      [reflexivity |].
    assert (Hm : In c (missing_columns columns)) by (rewrite E; now left).
    apply missing_columns_In in Hm. destruct Hm as [Hr Hn].
    exfalso. apply Hn, H, Hr.
Qed.

(** X7.  The column check of [process_qualifying_data] passes exactly when
    each of the thirteen required columns is present, and raises
    [ValueError] otherwise; [missing_columns] holds exactly the required
    columns the table lacks, further columns never matter.  [convert_time]
    needs the columns Q1, Q2 and Q3 and adds the three columns of seconds,
    so after it the check passes exactly when the seven other required
    columns are present, as they are in the files the collector writes. *)
Theorem required_columns_check (columns : list string) :
  (check_required_columns columns = Ok tt
   <-> (forall col, In col required_columns -> In col columns))
  /\ (check_required_columns columns = Raise ValueError
      <-> exists col, In col required_columns /\ ~ In col columns)
  /\ (forall col,
        In col (missing_columns columns)
        <-> In col required_columns /\ ~ In col columns)
  /\ (columns_after_convert_time columns = None
      <-> ~ (In "Q1" columns /\ In "Q2" columns /\ In "Q3" columns))
  /\ (forall converted,
        columns_after_convert_time columns = Some converted ->
        (check_required_columns converted = Ok tt
         <-> (forall col,
                In col [ "DriverNumber"; "BroadcastName"; "TeamName";
                         "Position"; "Year"; "EventName"; "WetSession" ] ->
                In col columns)))
  /\ option_map check_required_columns
       (columns_after_convert_time collector_columns)
     = Some (Ok tt).
Proof.
  split; [apply check_required_columns_Ok |].
  split; [| split; [apply missing_columns_In |]].
  - unfold check_required_columns. split.
    + intros H. destruct (missing_columns columns) as [| c l] eqn:E;
        [discriminate |].
      exists c. apply missing_columns_In. rewrite E. now left.
    + intros (c & Hc). apply missing_columns_In in Hc.
      destruct (missing_columns columns); [contradiction | reflexivity].
  - assert (Q : Py.mem String.eqb "Q1" columns
                && Py.mem String.eqb "Q2" columns
                && Py.mem String.eqb "Q3" columns = true
                <-> In "Q1" columns /\ In "Q2" columns /\ In "Q3" columns).
    { rewrite !andb_true_iff, !(mem_In _ String.eqb String.eqb_eq). tauto. }
    unfold columns_after_convert_time.
    destruct (Py.mem String.eqb "Q1" columns
              && Py.mem String.eqb "Q2" columns
              && Py.mem String.eqb "Q3" columns) eqn:M.
    + split; [| split; [| reflexivity]].
      * split; [discriminate |]. intros H. exfalso. apply H, Q. reflexivity.
      * intros converted E. inversion E. subst converted. clear E.
        rewrite check_required_columns_Ok.
        assert (Q' : In "Q1" columns /\ In "Q2" columns /\ In "Q3" columns)
          by (apply Q; reflexivity).
        split.
        -- intros H col Hc.
           assert (R : In col required_columns)
             by (simpl in Hc; simpl; intuition).
           specialize (H col R). rewrite !In_assign_column in H.
           simpl in Hc.
           destruct H as [[[H | ->] | ->] | ->]; [exact H | | |];
             repeat (destruct Hc as [Hc | Hc]; [discriminate Hc |]);
             contradiction.
        -- intros H col Hc. rewrite !In_assign_column. simpl in Hc.
           repeat (destruct Hc as [<- | Hc];
                   [try (do 3 left; apply H; simpl; tauto); tauto |]).
           contradiction.
    + split; [| split; [discriminate | reflexivity]].
      split; [| reflexivity]. intros _ H. apply Q in H. discriminate.
Qed.

Lemma required_columns_check_witness :
  check_required_columns collector_columns = Raise ValueError
  /\ check_required_columns
       [ "Extra"; "DriverNumber"; "BroadcastName"; "TeamName"; "Position";
         "Q1"; "Q2"; "Q3"; "Year"; "EventName"; "WetSession";
         "Q1Seconds"; "Q2Seconds"; "Q3Seconds" ] = Ok tt.
Proof.
  split.
  - apply (proj2 (proj1 (proj2 (required_columns_check collector_columns)))).
    exists "Q1Seconds". split; [simpl; tauto |].
    simpl. intros H.
    repeat (destruct H as [H | H]; [discriminate H |]). exact H.
  - apply (proj1 (proj2 (proj2 (proj2 (proj2
             (required_columns_check ("Extra" :: collector_columns))))))
             _ eq_refl).
    intros col H. simpl in H. simpl. tauto.
Defined.

(** ** Reading the data folder *)

Lemma read_all_from (files : list CsvFile) (all_dfs : list (list RawRow)) :
  fold_left
    (fun all_dfs file =>
       match file with
       | Readable df => all_dfs ++ [df]
       | Unreadable => all_dfs
       end)
    files all_dfs
  = all_dfs
      ++ map rows_of_file (filter is_readable files).
Proof.
  revert all_dfs. induction files as [| f files IH]; intros all_dfs; simpl.
  - rewrite app_nil_r. reflexivity.
  - rewrite IH. destruct f; simpl; [rewrite <- app_assoc |]; reflexivity.
Qed.

Lemma concat_readable (files : list CsvFile) :
  List.concat (map rows_of_file (filter is_readable files))
  = flat_map rows_of_file files.
Proof.
  induction files as [| f files IH]; simpl; [reflexivity |].
  destruct f; simpl; rewrite IH; reflexivity.
Qed.

Lemma combine_csv_files_cases (files : list CsvFile) :
  combine_csv_files files
  = if existsb is_readable files then Some (flat_map rows_of_file files)
    else None.
Proof.
  unfold combine_csv_files, read_all. rewrite read_all_from.
  cbn [app]. rewrite <- concat_readable.
  induction files as [| f files IH]; simpl; [reflexivity |].
  destruct f; simpl; [reflexivity | exact IH].
Qed.

Lemma combine_csv_files_None (files : list CsvFile) :
  combine_csv_files files = None
  <-> (forall file, In file files -> file = Unreadable).
Proof.
  rewrite combine_csv_files_cases.
  destruct (existsb is_readable files) eqn:E.
  - split; [discriminate |]. intros H.
    apply existsb_exists in E. destruct E as (f & Hf & R).
    rewrite (H f Hf) in R. discriminate.
  - split; [| reflexivity]. intros _ f Hf.
    destruct f as [df |]; [| reflexivity].
    assert (X : existsb is_readable files = true)
      by (apply existsb_exists; exists (Readable df); split;
          [exact Hf | reflexivity]).
    congruence.
Qed.

(** X8.  [combine_csv_files] returns [None] exactly when no file of the
    folder can be read (in particular for an empty folder); otherwise it
    returns the rows of the readable files, in the order of the files and of
    their rows; a file that cannot be read changes nothing of the result. *)
Theorem combine_csv_files_spec (files : list CsvFile) :
  (combine_csv_files files = None
   <-> (forall file, In file files -> file = Unreadable))
  /\ (forall quali_data,
        combine_csv_files files = Some quali_data ->
        quali_data = flat_map rows_of_file files
        /\ List.length quali_data
           = list_sum (map (fun f => List.length (rows_of_file f)) files))
  /\ (forall before after,
        files = before ++ Unreadable :: after ->
        combine_csv_files files = combine_csv_files (before ++ after)).
Proof.
  rewrite combine_csv_files_cases. split; [| split].
  - destruct (existsb is_readable files) eqn:E.
    + split; [discriminate |]. intros H.
      apply existsb_exists in E. destruct E as (f & Hf & R).
      rewrite (H f Hf) in R. discriminate.
    + split; [| reflexivity]. intros _ f Hf.
      destruct f as [df |]; [| reflexivity].
      assert (X : existsb is_readable files = true)
        by (apply existsb_exists; exists (Readable df); split;
            [exact Hf | reflexivity]).
      congruence.
  - intros quali_data H.
    destruct (existsb is_readable files); [| discriminate].
    inversion H. split; [reflexivity |]. apply length_flat_map.
  - intros before after ->. rewrite combine_csv_files_cases.
    rewrite !existsb_app, !flat_map_app. reflexivity.
Qed.

Lemma combine_csv_files_spec_witness :
  combine_csv_files [Unreadable; Unreadable] = None
  /\ combine_csv_files Cases.folder
     = Some (Sample.raw_clean ++ Sample.raw_clean)
  /\ combine_csv_files Cases.folder
     = combine_csv_files [Readable Sample.raw_clean;
                          Readable Sample.raw_clean].
Proof.
  split; [| split].
  - apply (proj1 (combine_csv_files_spec [Unreadable; Unreadable])).
    intros file [<- | [<- | []]]; reflexivity.
  - destruct (proj1 (proj2 (combine_csv_files_spec Cases.folder))
                (Sample.raw_clean ++ Sample.raw_clean) eq_refl) as [E _].
    rewrite E. reflexivity.
  - apply (proj2 (proj2 (combine_csv_files_spec Cases.folder))
             [Readable Sample.raw_clean] [Readable Sample.raw_clean]).
    reflexivity.
Defined.

(** ** A whole run *)

Lemma convert_time_cases (total_seconds : Z -> float) (df : list RawRow) :
  convert_time total_seconds df
  = if existsb row_malformed df then Raise ValueError
    else Ok (map (converted_row total_seconds) df).
Proof.
  rewrite row_malformed_columns. unfold convert_time.
  destruct (existsb is_malformed (map Q1 df)) eqn:E1.
  { rewrite (to_timedelta_raise _ E1). reflexivity. }
  rewrite (to_timedelta_ok _ E1). simpl.
  destruct (existsb is_malformed (map Q2 df)) eqn:E2.
  { rewrite (to_timedelta_raise _ E2). reflexivity. }
  rewrite (to_timedelta_ok _ E2). simpl.
  destruct (existsb is_malformed (map Q3 df)) eqn:E3.
  { rewrite (to_timedelta_raise _ E3). reflexivity. }
  rewrite (to_timedelta_ok _ E3). simpl.
  f_equal. rewrite !map_map, !combine_map, combine_self_map, map_map.
  reflexivity.
Qed.



(** ** Teammates in the timeline *)

Lemma eqb_nan_l (x : float) : PrimFloat.eqb nan x = false.
Proof.
  rewrite eqb_spec. change (Prim2SF nan) with S754_nan. reflexivity.
Qed.

Lemma first_row_of_member (d : string) (rows : list Row) :
  In d (map BroadcastName rows) -> exists r, first_row d rows = Some r.
Proof.
  intros H. destruct (first_row d rows) as [r |] eqn:F; [now exists r |].
  apply in_map_iff in H. destruct H as (r & Hn & Hr).
  exfalso. exact (proj1 (first_row_None _ _) F r Hr Hn).
Qed.

Lemma teammate_gap_of_member
    (year_data : list Row) (d t ev : string) :
  In d (map BroadcastName
          (filter (fun r => (TeamName r =? t)%string)
             (rows_of_event year_data ev))) ->
  teammateGap (event_summary_of year_data d t ev)
  = teammate_gap_of
      (filter (fun r => (TeamName r =? t)%string)
         (rows_of_event year_data ev))
      d.
Proof.
  intros H. rewrite teammate_gap_of_summary.
  destruct (first_row_of_member d (rows_of_event year_data ev)) as [r F].
  - apply in_map_iff in H. destruct H as (r & Hn & Hr).
    apply filter_In in Hr. apply in_map_iff. exists r. tauto.
  - rewrite F. reflexivity.
Qed.

(** X10.  In the output, take two drivers with the same first-seen team in a
    season and an event at which the rows of that team hold exactly these two
    drivers, both with a best time.  Then the teammate gap of the first is
    his best time minus the other's, the teammate gap of the second is the
    reverse difference, and the two gaps are opposite under [==] whenever
    the difference is a number. *)
Theorem teammates_have_opposite_gaps
    (set_iter : list string -> list string) (np_mean : list float -> float)
    (quali_data : list Row) (e1 e2 : TimelineEntry) (s1 s2 : EventSummary)
    (r1 r2 : Row) (t1 t2 : float) :
  In e1 (process_qualifying_data set_iter np_mean quali_data) ->
  In e2 (process_qualifying_data set_iter np_mean quali_data) ->
  In s1 (events e1) ->
  In s2 (events e2) ->
  year e2 = year e1 ->
  team e2 = team e1 ->
  round s2 = round s1 ->
  let team_data :=
    filter (fun r => (TeamName r =? team e1)%string)
      (rows_of_event (rows_of_year quali_data (year e1)) (round s1)) in
  Py.unique String.eqb (map BroadcastName team_data)
  = [driver e1; driver e2] ->
  first_row (driver e1) team_data = Some r1 ->
  first_row (driver e2) team_data = Some r2 ->
  get_best_time r1 = Some t1 ->
  get_best_time r2 = Some t2 ->
  teammateGap s1 = (t1 - t2)%float
  /\ teammateGap s2 = (t2 - t1)%float
  /\ (is_nan (t1 - t2) = false ->
      hasTeammateData s1 = true /\ hasTeammateData s2 = true
      /\ float_eq (teammateGap s2) (- teammateGap s1) = true).
Proof.
  intros He1 He2 Hs1 Hs2 Ey Et Er team_data U F1 F2 B1 B2.
  assert (M : forall d, In d [driver e1; driver e2] ->
                        In d (map BroadcastName team_data)).
  { intros d Hd. rewrite <- U in Hd.
    apply (proj1 (In_unique _ String.eqb String.eqb_eq _ _)). exact Hd. }
  pose proof (teammate_gaps_two team_data (driver e1) (driver e2) r1 r2
                U F1 F2) as G.
  rewrite B1, B2 in G.
  assert (N : NoDup [driver e1; driver e2])
    by (rewrite <- U; apply NoDup_unique, String.eqb_eq).
  assert (D : (driver e2 =? driver e1)%string = false).
  { apply String.eqb_neq. intros E. inversion N as [| ? ? Hin _].
    apply Hin. left. exact E. }
  assert (G1 : teammateGap s1 = (t1 - t2)%float).
  { rewrite (In_events_summary set_iter np_mean quali_data e1 s1 He1 Hs1).
    rewrite teammate_gap_of_member by (apply M; simpl; tauto).
    fold team_data. unfold teammate_gap_of, Py.get_default. rewrite G.
    simpl. rewrite String.eqb_refl. reflexivity. }
  assert (G2 : teammateGap s2 = (t2 - t1)%float).
  { rewrite (In_events_summary set_iter np_mean quali_data e2 s2 He2 Hs2).
    rewrite Ey, Et, Er.
    rewrite teammate_gap_of_member by (apply M; simpl; tauto).
    fold team_data. unfold teammate_gap_of, Py.get_default. rewrite G.
    simpl. rewrite D, String.eqb_refl. reflexivity. }
  split; [exact G1 | split; [exact G2 |]].
  intros Hn.
  pose proof (sub_swap_number t1 t2 Hn) as S.
  pose proof (has_teammate_data_iff_gap_is_number
                set_iter np_mean quali_data e1 s1 He1 Hs1) as H1.
  pose proof (has_teammate_data_iff_gap_is_number
                set_iter np_mean quali_data e2 s2 He2 Hs2) as H2.
  rewrite H1, H2, G1, G2, Hn. repeat split; try exact S.
  unfold float_eq in S. destruct (is_nan (t2 - t1)) eqn:X; [| reflexivity].
  apply is_nan_eq in X. rewrite X, eqb_nan_l in S. discriminate S.
Qed.

Lemma teammates_have_opposite_gaps_witness :
  teammateGap Cases.summary_A_R1 = (80 - 80.25)%float
  /\ teammateGap Cases.summary_B_R1 = (80.25 - 80)%float
  /\ hasTeammateData Cases.summary_A_R1 = true
  /\ float_eq (teammateGap Cases.summary_B_R1)
       (- teammateGap Cases.summary_A_R1) = true.
Proof.
  destruct (teammates_have_opposite_gaps Sample.insertion_order
              Sample.mean_seq Sample.season_2022 Sample.entry_A Cases.entry_B
              Cases.summary_A_R1 Cases.summary_B_R1
              (Sample.row "A" "T1" 1 "R1" 81 80.5 80)
              (Sample.row "B" "T1" 2 "R1" 81.5 80.75 80.25)
              80%float 80.25%float
              ltac:(vm_compute; tauto) ltac:(vm_compute; tauto)
              ltac:(vm_compute; tauto) ltac:(vm_compute; tauto)
              eq_refl eq_refl eq_refl eq_refl eq_refl eq_refl eq_refl
              eq_refl) as (G1 & G2 & H).
  destruct (H eq_refl) as (H1 & _ & S).
  repeat split; assumption.
Defined.

(** ** The collector: fetching a schedule *)

Module CollectorFacts.

Import Collector.

Section Attempts.

Variable net : Network.
Variables today this_year year max_retries delay : Z.

Let attempts_from (a m : nat) :=
  get_schedule_attempts net today this_year year max_retries delay (seq a m).

Lemma attempts_first_success (m a k : nat) (raw : list ScheduleEvent) :
  (a + m)%nat = Z.to_nat max_retries ->
  (a <= k < a + m)%nat ->
  get_event_schedule net year k = Some raw ->
  (forall j, (a <= j < k)%nat -> get_event_schedule net year j = None) ->
  attempts_from a m
  = (Some (filter_schedule today this_year year raw),
     List.concat (repeat (failed_attempt year delay) (k - a))
       ++ [GetEventSchedule year]).
Proof.
  unfold attempts_from. revert a.
  induction m as [| m IH]; intros a Hn Hk Hs Hf; [lia |].
  cbn [seq get_schedule_attempts].
  destruct (Nat.eq_dec k a) as [-> | Hne].
  - rewrite Hs, Nat.sub_diag. reflexivity.
  - rewrite (Hf a) by lia.
    assert (C : (Z.of_nat a <? max_retries - 1)%Z = true)
      by (apply Z.ltb_lt; lia).
    rewrite C.
    rewrite (IH (S a) ltac:(lia) ltac:(lia) Hs
               ltac:(intros j Hj; apply Hf; lia)).
    replace (k - a)%nat with (S (k - S a)) by lia. reflexivity.
Qed.

Lemma attempts_all_fail (m a : nat) :
  (a + S m)%nat = Z.to_nat max_retries ->
  (forall j, (a <= j < a + S m)%nat ->
             get_event_schedule net year j = None) ->
  attempts_from a (S m)
  = (None,
     List.concat (repeat (failed_attempt year delay) m)
       ++ [GetEventSchedule year; LogError]).
Proof.
  unfold attempts_from. revert a.
  induction m as [| m IH]; intros a Hn Hf.
  - cbn [seq get_schedule_attempts]. rewrite (Hf a) by lia.
    assert (C : (Z.of_nat a <? max_retries - 1)%Z = false)
      by (apply Z.ltb_ge; lia).
    rewrite C. reflexivity.
  - change (seq a (S (S m))) with (a :: seq (S a) (S m)).
    cbn [get_schedule_attempts]. rewrite (Hf a) by lia.
    assert (C : (Z.of_nat a <? max_retries - 1)%Z = true)
      by (apply Z.ltb_lt; lia).
    rewrite C.
    rewrite (IH (S a) ltac:(lia) ltac:(intros j Hj; apply Hf; lia)).
    reflexivity.
Qed.

Lemma attempts_None (m a : nat) :
  (a + m)%nat = Z.to_nat max_retries ->
  fst (attempts_from a m) = None ->
  forall j, (a <= j < a + m)%nat -> get_event_schedule net year j = None.
Proof.
  unfold attempts_from. revert a.
  induction m as [| m IH]; intros a Hn H j Hj; [lia |].
  cbn [seq get_schedule_attempts] in H.
  destruct (get_event_schedule net year a) as [raw |] eqn:E;
    [discriminate H |].
  destruct (Nat.eq_dec j a) as [-> | Hne]; [exact E |].
  destruct (Z.of_nat a <? max_retries - 1)%Z eqn:C.
  - apply (IH (S a)); try lia.
    destruct (get_schedule_attempts net today this_year year max_retries
                delay (seq (S a) m)).
    exact H.
  - apply Z.ltb_ge in C. lia.
Qed.

Lemma slept_app (l1 l2 : list Effect) :
  slept (l1 ++ l2) = (slept l1 + slept l2)%Z.
Proof.
  induction l1 as [| eff l1 IH]; simpl; [reflexivity |].
  destruct eff; rewrite IH; lia.
Qed.

Lemma attempts_bounds (m a : nat) :
  (a + m)%nat = Z.to_nat max_retries ->
  (0 <= delay)%Z ->
  (0 <= slept (snd (attempts_from a m))
   <= delay * Z.of_nat (Nat.pred m))%Z
  /\ (List.length (filter is_request (snd (attempts_from a m))) <= m)%nat
  /\ (List.length (filter is_error (snd (attempts_from a m))) <= 1)%nat.
Proof.
  unfold attempts_from. intros Hn Hd. revert a Hn.
  induction m as [| m IH]; intros a Hn.
  - simpl. repeat split; lia.
  - cbn [seq get_schedule_attempts].
    destruct (get_event_schedule net year a) as [raw |].
    + simpl. repeat split; nia.
    + destruct (Z.of_nat a <? max_retries - 1)%Z eqn:C.
      * destruct (IH (S a) ltac:(lia)) as ((S0 & S1) & R & E).
        destruct (get_schedule_attempts net today this_year year max_retries
                    delay (seq (S a) m)) as [r effs].
        apply Z.ltb_lt in C.
        simpl in *. repeat split; try lia.
        destruct m as [| m']; [lia |]. simpl in S1. nia.
      * simpl. repeat split; nia.
Qed.

Lemma attempts_counts (m a : nat) :
  (List.length (filter is_request (snd (attempts_from a m))) <= m)%nat
  /\ (List.length (filter is_error (snd (attempts_from a m))) <= 1)%nat.
Proof.
  unfold attempts_from. revert a.
  induction m as [| m IH]; intros a; [simpl; lia |].
  cbn [seq get_schedule_attempts].
  destruct (get_event_schedule net year a); [simpl; lia |].
  destruct (Z.of_nat a <? max_retries - 1)%Z; [| simpl; lia].
  specialize (IH (S a)).
  destruct (get_schedule_attempts net today this_year year max_retries
              delay (seq (S a) m)).
  simpl in *. lia.
Qed.

End Attempts.

Lemma filter_schedule_In (today this_year year : Z)
    (schedule : list ScheduleEvent) (ev : ScheduleEvent) :
  In ev (filter_schedule today this_year year schedule)
  <-> In ev schedule
      /\ EventFormat ev <> "testing"
      /\ (this_year = year -> (EventDate ev < today)%Z).
Proof.
  unfold filter_schedule.
  destruct (this_year =? year)%Z eqn:E.
  - apply Z.eqb_eq in E.
    rewrite !filter_In, negb_true_iff, String.eqb_neq, Z.ltb_lt. tauto.
  - apply Z.eqb_neq in E.
    rewrite !filter_In, negb_true_iff, String.eqb_neq. tauto.
Qed.

End CollectorFacts.

(** X11.  [_get_schedule] returns the schedule of the first attempt that
    succeeds among the first [max_retries] attempts, without its testing
    events and, for the current year, without the events that are not yet in
    the past; it returns [None] exactly when each of these attempts fails
    (always so when [max_retries] is not positive). *)
Theorem get_schedule_result
    (net : Collector.Network) (today this_year year max_retries delay : Z) :
  (forall k raw,
     (Z.of_nat k < max_retries)%Z ->
     Collector.get_event_schedule net year k = Some raw ->
     (forall j, (j < k)%nat ->
                Collector.get_event_schedule net year j = None) ->
     fst (Collector._get_schedule net today this_year year max_retries delay)
     = Some (Collector.filter_schedule today this_year year raw))
  /\ (fst (Collector._get_schedule net today this_year year max_retries delay)
      = None
      <-> (forall k, (Z.of_nat k < max_retries)%Z ->
                     Collector.get_event_schedule net year k = None))
  /\ (forall schedule ev,
        fst (Collector._get_schedule net today this_year year max_retries
               delay) = Some schedule ->
        In ev schedule ->
        Collector.EventFormat ev <> "testing"
        /\ (this_year = year -> (Collector.EventDate ev < today)%Z)).
Proof.
  unfold Collector._get_schedule.
  assert (S : forall k raw,
            (Z.of_nat k < max_retries)%Z ->
            Collector.get_event_schedule net year k = Some raw ->
            (forall j, (j < k)%nat ->
                       Collector.get_event_schedule net year j = None) ->
            Collector.get_schedule_attempts net today this_year year
              max_retries delay (seq 0 (Z.to_nat max_retries))
            = (Some (Collector.filter_schedule today this_year year raw),
               List.concat
                 (repeat (Collector.failed_attempt year delay) (k - 0))
                 ++ [Collector.GetEventSchedule year])).
  { intros k raw Hk Hs Hf.
    apply (CollectorFacts.attempts_first_success net today this_year year
             max_retries delay (Z.to_nat max_retries) 0 k raw);
      try lia; try exact Hs.
    intros j Hj. apply Hf. lia. }
  split; [| split].
  - intros k raw Hk Hs Hf. rewrite (S k raw Hk Hs Hf). reflexivity.
  - split.
    + intros H k Hk.
      apply (CollectorFacts.attempts_None net today this_year year
               max_retries delay (Z.to_nat max_retries) 0); try lia.
      exact H.
    + intros H. destruct (Z.to_nat max_retries) as [| m] eqn:E.
      * reflexivity.
      * rewrite (CollectorFacts.attempts_all_fail net today this_year year
                   max_retries delay m 0); try lia; [reflexivity |].
        intros j Hj. apply H. lia.
  - intros schedule ev H Hev.
    assert (X : exists raw,
               schedule
               = Collector.filter_schedule today this_year year raw).
    { clear S. revert H.
      generalize (seq 0 (Z.to_nat max_retries)). intros l.
      induction l as [| a l IH]; simpl; [discriminate |].
      destruct (Collector.get_event_schedule net year a) as [raw |].
      - simpl. intros E. inversion E. now exists raw.
      - destruct (Z.of_nat a <? max_retries - 1)%Z; [| discriminate].
        destruct (Collector.get_schedule_attempts net today this_year year
                    max_retries delay l).
        exact IH. }
    destruct X as (raw & ->).
    apply CollectorFacts.filter_schedule_In in Hev. tauto.
Qed.

Lemma get_schedule_result_witness :
  fst (Collector._get_schedule Cases.flaky 50 2022 2022 3 5)
  = Some [ Collector.mkScheduleEvent "R1" "conventional" 20;
           Collector.mkScheduleEvent "R2" "conventional" 30 ]
  /\ fst (Collector._get_schedule Cases.flaky 50 2022 2022 2 5) = None.
Proof.
  split.
  - rewrite (proj1 (get_schedule_result Cases.flaky 50 2022 2022 3 5)
               2%nat Cases.schedule_2022).
    + reflexivity.
    + reflexivity.
    + reflexivity.
    + intros j Hj. destruct j as [| [| j]]; [reflexivity | reflexivity | lia].
  - apply (proj2 (proj1 (proj2
             (get_schedule_result Cases.flaky 50 2022 2022 2 5)))).
    intros k Hk. destruct k as [| [| k]]; [reflexivity | reflexivity | lia].
Defined.

(** X12.  [_get_schedule] asks for the schedule at most [max_retries] times
    and logs at most one error.  It sleeps [delay] seconds after each failed
    attempt except the last possible one: [k] times when attempt [k] is the
    first to succeed, [max_retries - 1] times when every attempt fails, so
    never longer than [delay * (max_retries - 1)] seconds, and never after
    the attempt that ends the loop. *)
Theorem get_schedule_waits
    (net : Collector.Network) (today this_year year max_retries delay : Z) :
  let effects :=
    snd (Collector._get_schedule net today this_year year max_retries delay)
  in
  ((0 <= delay)%Z ->
   (0 <= Collector.slept effects
    <= delay * Z.of_nat (Nat.pred (Z.to_nat max_retries)))%Z)
  /\ (List.length (filter Collector.is_request effects)
      <= Z.to_nat max_retries)%nat
  /\ (List.length (filter Collector.is_error effects) <= 1)%nat
  /\ (forall k raw,
        (Z.of_nat k < max_retries)%Z ->
        Collector.get_event_schedule net year k = Some raw ->
        (forall j, (j < k)%nat ->
                   Collector.get_event_schedule net year j = None) ->
        effects
        = List.concat (repeat (Collector.failed_attempt year delay) k)
            ++ [Collector.GetEventSchedule year])
  /\ ((0 < max_retries)%Z ->
      (forall k, (Z.of_nat k < max_retries)%Z ->
                 Collector.get_event_schedule net year k = None) ->
      effects
      = List.concat
          (repeat (Collector.failed_attempt year delay)
             (Nat.pred (Z.to_nat max_retries)))
          ++ [Collector.GetEventSchedule year; Collector.LogError]).
Proof.
  cbv zeta. unfold Collector._get_schedule.
  split; [| split; [| split; [| split]]].
  - intros Hd.
    apply (CollectorFacts.attempts_bounds net today this_year year
             max_retries delay (Z.to_nat max_retries) 0); [lia | exact Hd].
  - apply (CollectorFacts.attempts_counts net today this_year year
             max_retries delay (Z.to_nat max_retries) 0).
  - apply (CollectorFacts.attempts_counts net today this_year year
             max_retries delay (Z.to_nat max_retries) 0).
  - intros k raw Hk Hs Hf.
    rewrite (CollectorFacts.attempts_first_success net today this_year year
               max_retries delay (Z.to_nat max_retries) 0 k raw
               ltac:(lia) ltac:(lia) Hs ltac:(intros j Hj; apply Hf; lia)).
    rewrite Nat.sub_0_r. reflexivity.
  - intros Hm H. destruct (Z.to_nat max_retries) as [| m] eqn:E; [lia |].
    rewrite (CollectorFacts.attempts_all_fail net today this_year year
               max_retries delay m 0 ltac:(lia)
               ltac:(intros j Hj; apply H; lia)).
    reflexivity.
Qed.

Lemma get_schedule_waits_witness :
  Collector.slept
    (snd (Collector._get_schedule Cases.flaky 50 2022 2022 3 5)) = 10%Z
  /\ snd (Collector._get_schedule Cases.flaky 50 2022 2022 2 5)
     = [ Collector.GetEventSchedule 2022; Collector.LogWarning;
         Collector.Sleep 5; Collector.GetEventSchedule 2022;
         Collector.LogError ].
Proof.
  destruct (get_schedule_waits Cases.flaky 50 2022 2022 3 5)
    as (_ & _ & _ & S & _).
  destruct (get_schedule_waits Cases.flaky 50 2022 2022 2 5)
    as (_ & _ & _ & _ & F).
  split.
  - rewrite (S 2%nat Cases.schedule_2022 eq_refl eq_refl).
    + reflexivity.
    + intros j Hj. destruct j as [| [| j]]; [reflexivity | reflexivity | lia].
  - rewrite F.
    + reflexivity.
    + reflexivity.
    + intros k Hk. destruct k as [| [| k]]; [reflexivity | reflexivity | lia].
Defined.

(** ** The collector: the events of a year *)

Lemma process_year_events_from
    (net : Collector.Network) (year : Z)
    (schedule : list Collector.ScheduleEvent)
    (yearly_data : list (list Collector.CollectedRow))
    (effects : list Collector.Effect) :
  exists effects',
    fold_left (Collector.process_event net year) schedule
      (yearly_data, effects)
    = (yearly_data ++ loaded_frames net year schedule, effects ++ effects')
    /\ Collector.slept effects' = (5 * Z.of_nat (List.length schedule))%Z
    /\ List.length (filter Collector.is_error effects')
       = List.length (failed_events net year schedule)
    /\ List.length (filter Collector.is_request effects')
       = List.length schedule.
Proof.
  revert yearly_data effects.
  induction schedule as [| ev schedule IH]; intros yearly_data effects.
  - exists []. simpl. rewrite !app_nil_r. repeat split.
  - cbn [fold_left]. unfold Collector.process_event at 2.
    unfold loaded_frames, failed_events. cbn [flat_map filter].
    destruct (Collector.get_session net year (Collector.EventName ev))
      as [session |].
    + destruct (IH (yearly_data
                    ++ [Collector.event_frame year (Collector.EventName ev)
                          session])
                  (effects
                   ++ [Collector.Sleep 5;
                       Collector.GetSession year (Collector.EventName ev)]))
        as (effects' & E & S & R & Q).
      exists ([Collector.Sleep 5;
               Collector.GetSession year (Collector.EventName ev)]
              ++ effects').
      rewrite E, <- !app_assoc. split; [reflexivity |].
      rewrite CollectorFacts.slept_app, S.
      cbn [app filter Collector.is_error Collector.is_request List.length].
      fold (failed_events net year schedule).
      rewrite R, Q. simpl Collector.slept. repeat split; lia.
    + destruct (IH yearly_data
                  (effects
                   ++ [Collector.Sleep 5;
                       Collector.GetSession year (Collector.EventName ev);
                       Collector.LogError]))
        as (effects' & E & S & R & Q).
      exists ([Collector.Sleep 5;
               Collector.GetSession year (Collector.EventName ev);
               Collector.LogError]
              ++ effects').
      rewrite E, <- !app_assoc. split; [reflexivity |].
      rewrite CollectorFacts.slept_app, S.
      cbn [app filter Collector.is_error Collector.is_request List.length].
      fold (failed_events net year schedule).
      rewrite R, Q. simpl Collector.slept. repeat split; lia.
Qed.

Lemma loaded_or_failed
    (net : Collector.Network) (year : Z)
    (schedule : list Collector.ScheduleEvent) :
  (List.length (loaded_frames net year schedule)
   + List.length (failed_events net year schedule)
   = List.length schedule)%nat.
Proof.
  unfold loaded_frames, failed_events.
  induction schedule as [| ev schedule IH]; [reflexivity |].
  cbn [flat_map filter].
  destruct (Collector.get_session net year (Collector.EventName ev));
    simpl; simpl in IH; lia.
Qed.

Lemma process_year_events_frames
    (net : Collector.Network) (year : Z)
    (schedule : list Collector.ScheduleEvent) :
  fst (Collector._process_year_events net year schedule)
  = loaded_frames net year schedule.
Proof.
  unfold Collector._process_year_events.
  destruct (process_year_events_from net year schedule [] [])
    as (effects' & E & _).
  rewrite E. reflexivity.
Qed.

(** X13.  [_process_year_events] returns one frame for each event of the
    schedule whose session loads, in the order of the schedule; an event
    that fails is logged and passed over, the later events are still
    processed.  Every row of a frame carries the requested year, the name of
    its event and the wet flag of its session.  The function sleeps five
    seconds for every event of the schedule, loaded or not, and requests
    each session once. *)
Theorem process_year_events_spec
    (net : Collector.Network) (year : Z)
    (schedule : list Collector.ScheduleEvent) :
  let yearly_data := fst (Collector._process_year_events net year schedule) in
  let effects := snd (Collector._process_year_events net year schedule) in
  yearly_data = loaded_frames net year schedule
  /\ (List.length yearly_data
      + List.length (failed_events net year schedule)
      = List.length schedule)%nat
  /\ (forall frame row,
        In frame yearly_data -> In row frame ->
        Collector.Year row = year
        /\ exists ev session,
             In ev schedule
             /\ Collector.get_session net year (Collector.EventName ev)
                = Some session
             /\ Collector.Event row = Collector.EventName ev
             /\ In (Collector.result row) (Collector.results session)
             /\ Collector.WetSession row = Collector.is_wet session)
  /\ Collector.slept effects = (5 * Z.of_nat (List.length schedule))%Z
  /\ List.length (filter Collector.is_error effects)
     = List.length (failed_events net year schedule)
  /\ List.length (filter Collector.is_request effects)
     = List.length schedule.
Proof.
  cbv zeta. unfold Collector._process_year_events.
  destruct (process_year_events_from net year schedule [] [])
    as (effects' & E & S & R & Q).
  rewrite E. cbn [fst snd app].
  split; [reflexivity | split; [| split; [| repeat split; assumption]]].
  - apply loaded_or_failed.
  - intros frame row Hf Hr. unfold loaded_frames in Hf.
    apply in_flat_map in Hf. destruct Hf as (ev & Hev & Hf).
    destruct (Collector.get_session net year (Collector.EventName ev))
      as [session |] eqn:G; [| contradiction].
    destruct Hf as [<- | []]. unfold Collector.event_frame in Hr.
    apply in_map_iff in Hr. destruct Hr as (r & <- & Hr).
    split; [reflexivity |]. exists ev, session. repeat split; assumption.
Qed.

Lemma process_year_events_spec_witness :
  fst (Collector._process_year_events Cases.flaky 2022 Cases.schedule_2022)
  = [Collector.event_frame 2022 "R1" Cases.session_R1]
  /\ Collector.slept
       (snd (Collector._process_year_events Cases.flaky 2022
               Cases.schedule_2022)) = 20%Z
  /\ List.length
       (filter Collector.is_error
          (snd (Collector._process_year_events Cases.flaky 2022
                  Cases.schedule_2022))) = 3%nat.
Proof.
  destruct (process_year_events_spec Cases.flaky 2022 Cases.schedule_2022)
    as (F & _ & _ & S & E & _).
  split; [exact F | split; [exact S | exact E]].
Defined.

(** ** The collector: the years of a request *)

Lemma fetch_year_step
    (net : Collector.Network) (today this_year : Z) (reload : bool)
    (st : Collector.FetchState) (y : Z) :
  let st' := Collector.fetch_year net today this_year reload st y in
  ((Collector.success st' = Collector.success st ++ [y]
    /\ Collector.failed st' = Collector.failed st
    /\ In y (Collector.files st')
    /\ ((In y (Collector.files st) /\ reload = false)
        \/ fetchable net today this_year y))
   \/ (Collector.success st' = Collector.success st
       /\ Collector.failed st' = Collector.failed st ++ [y]
       /\ Collector.files st' = Collector.files st
       /\ ~ (In y (Collector.files st) /\ reload = false)
       /\ ~ fetchable net today this_year y))
  /\ (forall z, In z (Collector.files st) -> In z (Collector.files st'))
  /\ (forall z, In z (Collector.files st') ->
                In z (Collector.files st) \/ z = y).
Proof.
  cbv zeta. unfold Collector.fetch_year, fetchable.
  destruct (Py.mem Z.eqb y (Collector.files st)) eqn:M.
  - apply (mem_In _ Z.eqb Z.eqb_eq) in M. destruct reload; simpl.
    + destruct (Collector._get_schedule net today this_year y 3 5)
        as [[schedule |] e1] eqn:G.
      * pose proof (process_year_events_frames net y schedule) as F.
        destruct (Collector._process_year_events net y schedule)
          as [[| frame frames] e2] eqn:P; simpl in F.
        -- simpl. split; [right | split; auto].
           repeat split; try tauto.
           ++ intros [_ H]. discriminate.
           ++ intros (sch & E & N & _). simpl in E. inversion E. subst sch.
              congruence.
        -- destruct (Collector.to_csv net y) eqn:W; simpl.
           ++ split; [left | split; auto].
              repeat split; try assumption.
              right. exists schedule. simpl. repeat split; congruence.
           ++ split; [right | split; auto].
              repeat split; try tauto.
              ** intros [_ H]. discriminate.
              ** intros (sch & _ & _ & H). discriminate.
      * simpl. split; [right | split; auto].
        repeat split; try tauto.
        -- intros [_ H]. discriminate.
        -- intros (sch & E & _). simpl in E. discriminate.
    + split; [left | split; auto]. repeat split; try assumption. tauto.
  - apply (mem_false _ Z.eqb Z.eqb_eq) in M. simpl.
    destruct (Collector._get_schedule net today this_year y 3 5)
      as [[schedule |] e1] eqn:G.
    + pose proof (process_year_events_frames net y schedule) as F.
      destruct (Collector._process_year_events net y schedule)
        as [[| frame frames] e2] eqn:P; simpl in F.
      * simpl. split; [right | split; auto].
        repeat split; try tauto.
        intros (sch & E & N & _). simpl in E. inversion E. subst sch.
        congruence.
      * destruct (Collector.to_csv net y) eqn:W; simpl.
        -- split; [left | split].
           ++ repeat split.
              ** apply in_or_app. right. left. reflexivity.
              ** right. exists schedule. simpl. repeat split; congruence.
           ++ intros z Hz. apply in_or_app. tauto.
           ++ intros z Hz. apply in_app_or in Hz. simpl in Hz.
              destruct Hz as [Hz | [Hz | []]]; auto.
        -- split; [right | split; auto].
           repeat split; try tauto.
           intros (sch & _ & _ & H). discriminate.
    + simpl. split; [right | split; auto].
      repeat split; try tauto.
      intros (sch & E & _). simpl in E. discriminate.
Qed.

Lemma fetch_years_from
    (net : Collector.Network) (today this_year : Z) (reload : bool)
    (years : list Z) (st : Collector.FetchState) :
  let final :=
    fold_left (Collector.fetch_year net today this_year reload) years st in
  exists s f,
    Collector.success final = Collector.success st ++ s
    /\ Collector.failed final = Collector.failed st ++ f
    /\ Permutation (s ++ f) years
    /\ (forall z, In z (Collector.files st) -> In z (Collector.files final))
    /\ (forall z, In z s -> In z (Collector.files final))
    /\ (forall z, In z (Collector.files final) ->
                  In z (Collector.files st) \/ In z s).
Proof.
  cbv zeta. revert st. induction years as [| y years IH]; intros st.
  - exists [], []. simpl. rewrite !app_nil_r. repeat split; auto.
    intros z [].
  - cbn [fold_left].
    destruct (IH (Collector.fetch_year net today this_year reload st y))
      as (s & f & Es & Ef & P & Fm & Fs & Fo).
    destruct (fetch_year_step net today this_year reload st y)
      as (Step & Mono & Only).
    cbv zeta in Step, Mono, Only.
    destruct Step as [(Ss & Sf & Sy & _) | (Ss & Sf & Sfiles & _)].
    + exists (y :: s), f. rewrite Es, Ef, Ss, Sf, <- app_assoc.
      repeat split; auto.
      * simpl. constructor. exact P.
      * intros z [<- | Hz]; auto.
      * intros z Hz. destruct (Fo z Hz) as [H | H]; [| simpl; auto].
        destruct (Only z H) as [H' | ->]; simpl; auto.
    + exists s, (y :: f). rewrite Es, Ef, Ss, Sf, <- app_assoc.
      repeat split; auto.
      * apply Permutation_sym, Permutation_cons_app, Permutation_sym, P.
      * intros z Hz. destruct (Fo z Hz) as [H | H]; auto.
        rewrite Sfiles in H. auto.
Qed.

(** X14.  [fetch_qualifying_data] reports every requested year exactly once,
    as a success or as a failure.  Every year reported as a success has its
    output file when the function returns; no file that existed is lost, and
    a file that did not exist before belongs to a year reported as a
    success. *)
Theorem fetch_qualifying_data_partition
    (net : Collector.Network) (today this_year : Z) (reload : bool)
    (existing years : list Z) :
  let final :=
    Collector.fetch_qualifying_data net today this_year reload existing years
  in
  Permutation (Collector.success final ++ Collector.failed final) years
  /\ (List.length (Collector.success final)
      + List.length (Collector.failed final) = List.length years)%nat
  /\ (forall y, In y (Collector.success final) ->
                In y (Collector.files final))
  /\ (forall y, In y existing -> In y (Collector.files final))
  /\ (forall y, In y (Collector.files final) ->
                In y existing \/ In y (Collector.success final)).
Proof.
  cbv zeta. unfold Collector.fetch_qualifying_data.
  destruct (fetch_years_from net today this_year reload years
              (Collector.mkFetchState [] [] existing []))
    as (s & f & Es & Ef & P & Fm & Fs & Fo).
  cbv zeta in *. simpl in Es, Ef, Fm, Fo. rewrite Es, Ef.
  repeat split; auto.
  rewrite <- length_app. apply Permutation_length. exact P.
Qed.

Lemma fetch_qualifying_data_partition_witness :
  Collector.success
    (Collector.fetch_qualifying_data Cases.flaky 50 2022 false []
       [2022; 2021; 2022]%Z) = [2022; 2022]%Z
  /\ Collector.failed
       (Collector.fetch_qualifying_data Cases.flaky 50 2022 false []
          [2022; 2021; 2022]%Z) = [2021%Z]
  /\ Permutation ([2022; 2022] ++ [2021])%Z [2022; 2021; 2022]%Z
  /\ In 2022%Z
       (Collector.files
          (Collector.fetch_qualifying_data Cases.flaky 50 2022 false []
             [2022; 2021; 2022]%Z)).
Proof.
  destruct (fetch_qualifying_data_partition Cases.flaky 50 2022 false []
              [2022; 2021; 2022]%Z) as (P & _ & F & _).
  split; [reflexivity | split; [reflexivity | split; [exact P |]]].
  apply F. vm_compute. tauto.
Defined.

(** X15.  Without [reload], years whose output files all exist are reported
    as successes in the order requested, and nothing else happens: no
    request is sent, nothing is slept, no file is written. *)
Theorem fetch_qualifying_data_skips_existing
    (net : Collector.Network) (today this_year : Z)
    (existing years : list Z) :
  (forall y, In y years -> In y existing) ->
  Collector.fetch_qualifying_data net today this_year false existing years
  = Collector.mkFetchState years [] existing
      (repeat Collector.LogInfo (List.length years)).
Proof.
  unfold Collector.fetch_qualifying_data. intros H.
  assert (G : forall s e,
            fold_left (Collector.fetch_year net today this_year false) years
              (Collector.mkFetchState s [] existing e)
            = Collector.mkFetchState (s ++ years) [] existing
                (e ++ repeat Collector.LogInfo (List.length years))).
  { induction years as [| y years IH]; intros s e.
    - simpl. rewrite !app_nil_r. reflexivity.
    - cbn [fold_left]. unfold Collector.fetch_year at 2.
      cbn [Collector.files Collector.success Collector.failed
           Collector.effects].
      assert (M : Py.mem Z.eqb y existing = true)
        by (apply (mem_In _ Z.eqb Z.eqb_eq), H; left; reflexivity).
      rewrite M. cbn [negb andb].
      rewrite IH by (intros z Hz; apply H; right; exact Hz).
      rewrite <- !app_assoc. reflexivity. }
  apply (G [] []).
Qed.

Lemma fetch_qualifying_data_skips_existing_witness :
  Collector.fetch_qualifying_data Cases.flaky 50 2022 false
    [2020; 2021; 2022]%Z [2021; 2020]%Z
  = Collector.mkFetchState [2021; 2020]%Z [] [2020; 2021; 2022]%Z
      [Collector.LogInfo; Collector.LogInfo].
Proof.
  apply (fetch_qualifying_data_skips_existing Cases.flaky 50 2022
           [2020; 2021; 2022]%Z [2021; 2020]%Z).
  intros y [<- | [<- | []]]; simpl; tauto.
Defined.

Lemma fetch_years_outcome
    (net : Collector.Network) (today this_year : Z) (reload : bool)
    (years : list Z) (st : Collector.FetchState) (y : Z) :
  NoDup years ->
  In y years ->
  let final :=
    fold_left (Collector.fetch_year net today this_year reload) years st in
  (In y (Collector.success final)
   <-> In y (Collector.success st)
       \/ (In y (Collector.files st) /\ reload = false)
       \/ fetchable net today this_year y)
  /\ (In y (Collector.failed final)
      <-> In y (Collector.failed st)
          \/ (~ (In y (Collector.files st) /\ reload = false)
              /\ ~ fetchable net today this_year y)).
Proof.
  cbv zeta. revert st.
  induction years as [| a years IH]; intros st N Hy; [contradiction |].
  inversion N as [| ? ? Ha N']. subst. cbn [fold_left].
  destruct (fetch_year_step net today this_year reload st a)
    as (Step & Mono & Only).
  cbv zeta in Step, Mono, Only.
  set (st1 := Collector.fetch_year net today this_year reload st a) in *.
  destruct Hy as [<- | Hy].
  - destruct (fetch_years_from net today this_year reload years st1)
      as (s & f & Es & Ef & P & _).
    cbv zeta in Es, Ef. rewrite Es, Ef, !in_app_iff.
    assert (Hs : ~ In a s)
      by (intros H; apply Ha, (Permutation_in _ P), in_or_app; auto).
    assert (Hf : ~ In a f)
      by (intros H; apply Ha, (Permutation_in _ P), in_or_app; auto).
    destruct Step as [(Ss & Sf & _ & C) | (Ss & Sf & _ & C1 & C2)];
      rewrite Ss, Sf, ?in_app_iff; simpl; tauto.
  - assert (Hne : y <> a) by (intros ->; contradiction).
    destruct (IH st1 N' Hy) as [IS IF]. rewrite IS, IF.
    assert (Fy : In y (Collector.files st1) <-> In y (Collector.files st)).
    { split; [| apply Mono]. intros H.
      destruct (Only y H) as [H' | H']; [exact H' | contradiction]. }
    rewrite Fy.
    destruct Step as [(Ss & Sf & _) | (Ss & Sf & _)];
      rewrite Ss, Sf, ?in_app_iff; simpl; intuition congruence.
Qed.

(** X16.  When no year is requested twice, a requested year is reported as a
    success exactly when its output file exists and [reload] is off, or a
    schedule arrives within the three attempts, the session of at least one
    of its events loads, and the file is written; it is reported as a
    failure in every other case. *)
Theorem fetch_qualifying_data_outcome
    (net : Collector.Network) (today this_year : Z) (reload : bool)
    (existing years : list Z) (y : Z) :
  NoDup years ->
  In y years ->
  let final :=
    Collector.fetch_qualifying_data net today this_year reload existing years
  in
  (In y (Collector.success final)
   <-> (In y existing /\ reload = false)
       \/ fetchable net today this_year y)
  /\ (In y (Collector.failed final)
      <-> ~ (In y existing /\ reload = false)
          /\ ~ fetchable net today this_year y).
Proof.
  intros N Hy. cbv zeta. unfold Collector.fetch_qualifying_data.
  destruct (fetch_years_outcome net today this_year reload years
              (Collector.mkFetchState [] [] existing []) y N Hy)
    as [S F].
  cbv zeta in S, F. simpl in S, F. rewrite S, F. tauto.
Qed.

Lemma fetch_qualifying_data_outcome_witness :
  In 2022%Z
    (Collector.success
       (Collector.fetch_qualifying_data Cases.flaky 50 2022 true [2021%Z]
          [2021; 2022]%Z))
  /\ In 2021%Z
       (Collector.failed
          (Collector.fetch_qualifying_data Cases.flaky 50 2022 true [2021%Z]
             [2021; 2022]%Z)).
Proof.
  assert (N : NoDup [2021; 2022]%Z).
  { constructor; [| constructor; [| constructor]]; simpl.
    - intros [H | []]. discriminate H.
    - tauto. }
  split.
  - apply (proj1 (fetch_qualifying_data_outcome Cases.flaky 50 2022 true
                    [2021%Z] [2021; 2022]%Z 2022%Z N
                    ltac:(simpl; tauto))).
    right.
    exists [ Collector.mkScheduleEvent "R1" "conventional" 20;
             Collector.mkScheduleEvent "R2" "conventional" 30 ].
    split; [reflexivity | split; [| reflexivity]].
    vm_compute. discriminate.
  - apply (proj2 (fetch_qualifying_data_outcome Cases.flaky 50 2022 true
                    [2021%Z] [2021; 2022]%Z 2021%Z N
                    ltac:(simpl; tauto))).
    split.
    + intros [_ H]. discriminate H.
    + intros (schedule & H & _). vm_compute in H. discriminate H.
Defined.

(** ** Seasons in the output *)

Lemma season_entries_year
    (quali_data : list Row) (y : Z) (drivers : list string) (a : Acc.t) :
  In a (season_entries quali_data y drivers) -> Acc.year a = y.
Proof.
  intros H. apply In_season_entries in H. destruct H as (d & t & _ & _ & ->).
  destruct (event_loop_fields (rows_of_year quali_data y) d t
              (season_events quali_data y) (create_driver_entry y d t))
    as (Ly & _).
  exact Ly.
Qed.

Lemma rows_of_year_idempotent (quali_data : list Row) (y : Z) :
  rows_of_year (rows_of_year quali_data y) y = rows_of_year quali_data y.
Proof. unfold rows_of_year. apply filter_idempotent. Qed.

Lemma season_entries_of_season
    (quali_data : list Row) (y : Z) (drivers : list string) :
  season_entries (rows_of_year quali_data y) y drivers
  = season_entries quali_data y drivers.
Proof.
  unfold season_entries, season_events. apply flat_map_pointwise.
  intros d _. rewrite !driver_team_mapping_spec. unfold first_seen_team.
  rewrite rows_of_year_idempotent. reflexivity.
Qed.

Lemma unique_years_of_season (quali_data : list Row) (y : Z) :
  Py.unique Z.eqb (map Year (rows_of_year quali_data y))
  = match rows_of_year quali_data y with
    | [] => []
    | _ :: _ => [y]
    end.
Proof.
  assert (H : forall r, In r (rows_of_year quali_data y) -> Year r = y)
    by (intros r Hr; apply In_rows_of_year in Hr; tauto).
  destruct (rows_of_year quali_data y) as [| r rs]; [reflexivity |].
  rewrite map_cons, (unique_cons _ Z.eqb Z.eqb_eq).
  rewrite (H r) by (left; reflexivity). f_equal.
  apply filter_nil. intros z Hz.
  apply (proj1 (In_unique _ Z.eqb Z.eqb_eq _ _)) in Hz.
  apply in_map_iff in Hz. destruct Hz as (r' & <- & Hr').
  rewrite (H r') by (right; exact Hr'). rewrite Z.eqb_refl. reflexivity.
Qed.

Lemma filter_flat_map {A B : Type} (p : B -> bool) (f : A -> list B)
    (l : list A) :
  filter p (flat_map f l) = flat_map (fun x => filter p (f x)) l.
Proof.
  induction l as [| x l IH]; simpl; [reflexivity |].
  rewrite filter_app, IH. reflexivity.
Qed.

Lemma filter_map_swap {A B : Type} (p : B -> bool) (f : A -> B)
    (l : list A) :
  filter p (map f l) = map f (filter (fun x => p (f x)) l).
Proof.
  induction l as [| x l IH]; simpl; [reflexivity |].
  destruct (p (f x)); simpl; rewrite IH; reflexivity.
Qed.

Lemma flat_map_select {B : Type} (f : Z -> list B) (y : Z) (l : list Z) :
  NoDup l ->
  flat_map (fun x => if (x =? y)%Z then f x else []) l
  = if Py.mem Z.eqb y l then f y else [].
Proof.
  induction 1 as [| x l Hx Hl IH]; simpl; [reflexivity |].
  rewrite IH. destruct (x =? y)%Z eqn:E.
  - apply Z.eqb_eq in E. subst x. rewrite Z.eqb_refl. simpl.
    apply (mem_false _ Z.eqb Z.eqb_eq) in Hx. rewrite Hx.
    apply app_nil_r.
  - rewrite Z.eqb_sym, E. reflexivity.
Qed.

(** X17.  Seasons are processed independently of one another: the entries of
    the output that belong to a year are, in the same order, the output of
    the function on the rows of that year alone. *)
Theorem seasons_are_independent
    (set_iter : list string -> list string) (np_mean : list float -> float)
    (quali_data : list Row) (y : Z) :
  filter (fun e => (year e =? y)%Z)
    (process_qualifying_data set_iter np_mean quali_data)
  = process_qualifying_data set_iter np_mean (rows_of_year quali_data y).
Proof.
  rewrite !process_qualifying_data_entries.
  rewrite filter_map_swap, filter_flat_map.
  rewrite (flat_map_pointwise _
             (fun x =>
                if (x =? y)%Z
                then season_entries quali_data x
                       (set_iter (season_drivers quali_data x))
                else [])).
  - rewrite flat_map_select by (apply NoDup_unique, Z.eqb_eq).
    rewrite unique_years_of_season.
    destruct (rows_of_year quali_data y) as [| r rs] eqn:R.
    + assert (M : Py.mem Z.eqb y (Py.unique Z.eqb (map Year quali_data))
                  = false).
      { apply (mem_false _ Z.eqb Z.eqb_eq). intros H.
        apply (proj1 (In_unique _ Z.eqb Z.eqb_eq _ _)) in H.
        apply in_map_iff in H. destruct H as (r & Hy & Hr).
        assert (X : In r (rows_of_year quali_data y))
          by (apply In_rows_of_year; tauto).
        rewrite R in X. contradiction. }
      rewrite M. reflexivity.
    + assert (M : Py.mem Z.eqb y (Py.unique Z.eqb (map Year quali_data))
                  = true).
      { apply (mem_In _ Z.eqb Z.eqb_eq).
        apply (proj2 (In_unique _ Z.eqb Z.eqb_eq _ _)).
        assert (X : In r (rows_of_year quali_data y))
          by (rewrite R; left; reflexivity).
        apply In_rows_of_year in X. destruct X as [X <-].
        apply in_map. exact X. }
      rewrite M. cbn [flat_map]. rewrite app_nil_r. rewrite <- R.
      rewrite season_entries_of_season. unfold season_drivers.
      rewrite rows_of_year_idempotent. reflexivity.
  - intros x _. destruct (x =? y)%Z eqn:E.
    + apply filter_all. intros a Ha. apply season_entries_year in Ha.
      simpl. rewrite Ha. exact E.
    + apply filter_nil. intros a Ha. apply season_entries_year in Ha.
      simpl. rewrite Ha. exact E.
Qed.

Lemma map_fst_pair {A B : Type} (x : A) (l : list B) :
  map fst (map (pair x) l) = repeat x (List.length l).
Proof.
  induction l as [| b l IH]; simpl; [reflexivity | rewrite IH; reflexivity].
Qed.


